(** * Research assistant (streamlit_app.py): paper store, context, chat log

    A shallow embedding of the logic of [streamlit_app.py]: the class
    [StreamlitResearchAssistant] ([search_papers], [save_papers_to_file],
    [get_paper_info], [chat_with_claude]) and the two handlers of the
    page that change state (the search form and the chat input).

    Conventions of the model.
    - Text is a [string]; a character is an [ascii], read as a code point
      below 256.  On that range [str_lower] is Python's [str.lower]
      (Basic Latin and Latin-1 capitals move up by 32).  The cross mark
      U+274C that opens the two fixed chat messages lies outside the range
      and is written in its UTF-8 bytes.
    - An exception is a value: [Raise e] in [result], and an action on the
      disk is a function [fs -> result A * fs].  [try ... except Exception]
      is a [match] on that result.
    - [shown] holds, in order, the texts of the status elements that the
      methods of the assistant and the search form put on the page:
      [st.error], and in [on_search] also [st.warning] and [st.success].
    - [PAPER_DIR] is the list of its entries in the order [os.listdir]
      reports them.  That order is the file system's: a new directory
      appears at an index [slot] that the caller of the model supplies.
    - A topic key names one entry of [PAPER_DIR].  [os.path.join] gives a
      direct child of [PAPER_DIR] only when the key is a single path
      component ([path_component]): no slash, not empty, not a dot name.
      The disk of the model is flat, so for any other key it does not say
      where the real path leads; every statement that depends on the place
      of the bucket among the entries of [PAPER_DIR], or on what a failed
      save leaves behind, carries [path_component] as a hypothesis.
    - A name is stored in UTF-8 and a file system accepts at most
      [NAME_MAX] bytes of it; other refusals of the environment
      (permissions, a full disk) are not part of the model, and the
      statements about a save speak of one that reported no error. *)

From Stdlib Require Import String Ascii List Bool Arith ZArith Lia Permutation.
From Stdlib Require Import DecimalString.
Import ListNotations.
Open Scope string_scope.

(** ** Text *)

(** One character of [str.lower()], code points 0..255. *)
Definition lower_char (c : ascii) : ascii :=
  let n := nat_of_ascii c in
  if (((65 <=? n) && (n <=? 90)) ||
      ((192 <=? n) && (n <=? 222) && negb (n =? 215)))%nat
  then ascii_of_nat (n + 32)
  else c.

Fixpoint str_map (f : ascii -> ascii) (s : string) : string :=
  match s with
  | EmptyString => EmptyString
  | String c rest => String (f c) (str_map f rest)
  end.

(** [s.lower()] *)
Definition str_lower (s : string) : string := str_map lower_char s.

(** [s.replace(old, new)] for one-character [old] and [new]. *)
Definition str_replace (old new : ascii) (s : string) : string :=
  str_map (fun c => if Ascii.eqb c old then new else c) s.

(** [s[:n]] *)
Fixpoint str_take (n : nat) (s : string) : string :=
  match n, s with
  | S k, String c rest => String c (str_take k rest)
  | _, _ => EmptyString
  end.

(** [sep.join(parts)] *)
Definition str_join (sep : string) (parts : list string) : string :=
  String.concat sep parts.

(** [needle in hay] on strings. *)
Fixpoint str_contains (needle hay : string) : bool :=
  String.prefix needle hay ||
  match hay with
  | EmptyString => false
  | String _ rest => str_contains needle rest
  end.

Definition newline : string := String (ascii_of_nat 10) EmptyString.
Definition nul : ascii := ascii_of_nat 0.
Definition slash : ascii := ascii_of_nat 47.

Fixpoint str_mem (c : ascii) (s : string) : bool :=
  match s with
  | EmptyString => false
  | String d rest => Ascii.eqb c d || str_mem c rest
  end.

(** The bytes of [s.encode("utf-8")], for code points below 256. *)
Fixpoint utf8_length (s : string) : nat :=
  match s with
  | EmptyString => 0
  | String c rest => (if (nat_of_ascii c <? 128)%nat then 1 else 2) + utf8_length rest
  end.

(** [str(n)] for a length. *)
Definition str_of_nat (n : nat) : string := NilEmpty.string_of_uint (Nat.to_uint n).

(** ** Paper records *)

(** One item yielded by [client.results(search)], as [search_papers] reads
    it; [r_published] is [str(paper.published.date())]. *)
Record arxiv_result := {
  get_short_id : string;
  r_title : string;
  r_authors : list string;
  r_summary : string;
  r_pdf_url : string;
  r_published : string;
  r_categories : list string;
  r_primary_category : string
}.

(** The dict [paper_info] built in [search_papers]. *)
Record paper := {
  paper_id : string;
  title : string;
  authors : list string;
  authors_str : string;
  summary : string;
  pdf_url : string;
  published : string;
  categories : list string;
  primary_category : string
}.

(** The dict written under each identifier by [save_papers_to_file]. *)
Record entry := {
  e_title : string;
  e_authors : list string;
  e_summary : string;
  e_pdf_url : string;
  e_published : string
}.

Definition paper_info_of (r : arxiv_result) : paper :=
  {| paper_id := get_short_id r;
     title := r_title r;
     authors := r_authors r;
     authors_str := str_join ", " (r_authors r);
     summary := r_summary r;
     pdf_url := r_pdf_url r;
     published := r_published r;
     categories := r_categories r;
     primary_category := r_primary_category r |}.

Definition entry_of (p : paper) : entry :=
  {| e_title := title p;
     e_authors := authors p;
     e_summary := summary p;
     e_pdf_url := pdf_url p;
     e_published := published p |}.

(** ** Python dicts with string keys

    [papers_info] keeps its keys in insertion order, and an assignment to
    a key that is present replaces the value where it stands. *)
Definition bucket := list (string * entry).

Fixpoint dict_get (k : string) (d : bucket) : option entry :=
  match d with
  | [] => None
  | (k', v) :: rest => if String.eqb k k' then Some v else dict_get k rest
  end.

Fixpoint dict_set (k : string) (v : entry) (d : bucket) : bucket :=
  match d with
  | [] => [(k, v)]
  | (k', v') :: rest =>
      if String.eqb k k' then (k', v) :: rest else (k', v') :: dict_set k v rest
  end.

Definition dict_keys (d : bucket) : list string := map fst d.

(** ** Exceptions *)

Inductive exn :=
| FileExistsError (path : string)
| IsADirectoryError (path : string)
| NotADirectoryError (path : string)
| FileNotFoundError (path : string)
| ValueError (msg : string)
| JSONDecodeError (msg : string)
| CollaboratorError (msg : string)
| FileNameTooLong (path : string).

(** [str(e)]; a path is quoted as [repr] quotes a name without quotes or
    escapes. *)
Definition str_exn (e : exn) : string :=
  match e with
  | FileExistsError p => "[Errno 17] File exists: '" ++ p ++ "'"
  | IsADirectoryError p => "[Errno 21] Is a directory: '" ++ p ++ "'"
  | NotADirectoryError p => "[Errno 20] Not a directory: '" ++ p ++ "'"
  | FileNotFoundError p => "[Errno 2] No such file or directory: '" ++ p ++ "'"
  | ValueError m => m
  | JSONDecodeError m => m
  | CollaboratorError m => m
  | FileNameTooLong p => "[Errno 36] File name too long: '" ++ p ++ "'"
  end.

Inductive result (A : Type) :=
| Ok (a : A)
| Raise (e : exn).
Arguments Ok {A} a.
Arguments Raise {A} e.

(** ** The directory [PAPER_DIR] *)

(** What stands at [<dir>/papers_info.json]. *)
Inductive info :=
| Missing
| Json (papers_info : bucket)
| Malformed (why : string)
| Folder.

Inductive node :=
| RegularFile
| Directory (papers_info_json : info).

Definition fs := list (string * node).

(** An action on the disk that may raise. *)
Definition io (A : Type) : Type := fs -> result A * fs.

Definition ret {A} (a : A) : io A := fun d => (Ok a, d).
Definition raise {A} (e : exn) : io A := fun d => (Raise e, d).
Definition bind {A B} (m : io A) (k : A -> io B) : io B :=
  fun d =>
    match m d with
    | (Ok a, d') => k a d'
    | (Raise e, d') => (Raise e, d')
    end.

Notation "m ;; k" := (bind m (fun _ => k))
  (at level 61, right associativity).

Definition PAPER_DIR : string := "papers".

(** The longest name, in bytes, that the file system takes. *)
Definition NAME_MAX : nat := 255.

(** [os.path.join(a, b)] for a relative [b]. *)
Definition path_join (a b : string) : string := a ++ "/" ++ b.

Fixpoint lookup (name : string) (d : fs) : option node :=
  match d with
  | [] => None
  | (n, x) :: rest => if String.eqb name n then Some x else lookup name rest
  end.

Fixpoint replace_node (name : string) (x : node) (d : fs) : fs :=
  match d with
  | [] => []
  | (n, y) :: rest =>
      if String.eqb name n then (n, x) :: rest else (n, y) :: replace_node name x rest
  end.

Definition insert_at (slot : nat) (e : string * node) (d : fs) : fs :=
  (firstn slot d ++ e :: skipn slot d)%list.

(** [os.makedirs(os.path.join(PAPER_DIR, name), exist_ok=True)] *)
Definition makedirs (slot : nat) (name : string) : io unit :=
  fun d =>
    if str_mem nul name then raise (ValueError "embedded null byte") d
    else if (NAME_MAX <? utf8_length name)%nat
    then raise (FileNameTooLong (path_join PAPER_DIR name)) d
    else
      match lookup name d with
      | Some (Directory _) => ret tt d
      | Some RegularFile => raise (FileExistsError (path_join PAPER_DIR name)) d
      | None => ret tt (insert_at slot (name, Directory Missing) d)
      end.

(** [with open(<name>/papers_info.json, "w") as f: json.dump(papers_info, f, indent=2)] *)
Definition dump_json (name : string) (papers_info : bucket) : io unit :=
  fun d =>
    let file_path := path_join (path_join PAPER_DIR name) "papers_info.json" in
    match lookup name d with
    | Some (Directory Folder) => raise (IsADirectoryError file_path) d
    | Some (Directory _) => ret tt (replace_node name (Directory (Json papers_info)) d)
    | Some RegularFile => raise (NotADirectoryError file_path) d
    | None => raise (FileNotFoundError file_path) d
    end.

(** The bucket a directory of [PAPER_DIR] holds, if it holds one. *)
Definition bucket_of (name : string) (d : fs) : option bucket :=
  match lookup name d with
  | Some (Directory (Json b)) => Some b
  | _ => None
  end.

(** A key that [os.path.join] turns into a direct child of [PAPER_DIR]. *)
Definition path_component (name : string) : bool :=
  negb (String.eqb name "") && negb (String.eqb name ".") &&
  negb (String.eqb name "..") && negb (str_mem slash name).

(** ** The assistant *)

Record world := {
  disk : fs;
  shown : list string
}.

Definition st_error (msg : string) (w : world) : world :=
  {| disk := disk w; shown := (shown w ++ [msg])%list |}.

Definition st_warning (msg : string) (w : world) : world :=
  {| disk := disk w; shown := (shown w ++ [msg])%list |}.

Definition st_success (msg : string) (w : world) : world :=
  {| disk := disk w; shown := (shown w ++ [msg])%list |}.

Definition topic_dir (topic : string) : string :=
  str_replace " "%char "_"%char (str_lower topic).

(** The loop of [save_papers_to_file] that fills [papers_info]. *)
Definition papers_info_of (papers_data : list paper) : bucket :=
  fold_left (fun papers_info p => dict_set (paper_id p) (entry_of p) papers_info)
            papers_data [].

Definition save_papers_to_file (slot : nat) (topic : string)
    (papers_data : list paper) (w : world) : world :=
  let name := topic_dir topic in
  match (makedirs slot name ;; dump_json name (papers_info_of papers_data)) (disk w) with
  | (Ok _, d) => {| disk := d; shown := shown w |}
  | (Raise e, d) =>
      st_error ("Error saving papers: " ++ str_exn e) {| disk := d; shown := shown w |}
  end.

(** The loop of [get_paper_info] over [os.listdir(PAPER_DIR)]. *)
Fixpoint scan (paper_id : string) (items : fs) : result (option entry) :=
  match items with
  | [] => Ok None
  | (_, RegularFile) :: rest => scan paper_id rest
  | (_, Directory Missing) :: rest => scan paper_id rest
  | (_, Directory Folder) :: rest => scan paper_id rest
  | (_, Directory (Malformed why)) :: _ => Raise (JSONDecodeError why)
  | (_, Directory (Json papers_info)) :: rest =>
      match dict_get paper_id papers_info with
      | Some v => Ok (Some v)
      | None => scan paper_id rest
      end
  end.

Definition get_paper_info (paper_id : string) (w : world) : option entry * world :=
  match scan paper_id (disk w) with
  | Ok r => (r, w)
  | Raise e => (None, st_error ("Error retrieving paper info: " ++ str_exn e) w)
  end.

(** What iterating [client.results(search)] does: the items it yields and
    the exception, if any, that ends the iteration. *)
Definition feed : Type := list arxiv_result * option exn.

(** The search collaborator: query and [max_results] to a feed. *)
Definition arxiv_client : Type := string -> Z -> feed.

Definition search_papers (client : arxiv_client) (slot : nat) (topic : string)
    (max_results : Z) (w : world) : list paper * world :=
  match client topic max_results with
  | (items, None) =>
      let papers_data := map paper_info_of items in
      (papers_data, save_papers_to_file slot topic papers_data w)
  | (_, Some e) => ([], st_error ("Error searching papers: " ++ str_exn e) w)
  end.

(** ** Chat *)

Inductive role := user | assistant.

Record turn := {
  turn_role : role;
  content : string
}.

(** [self.anthropic.messages.create(...)] followed by
    [response.content[0].text], as a function of the message sent. *)
Definition messages_api : Type := string -> result string.

Definition not_configured : string :=
  "❌ Anthropic API not configured. Please set ANTHROPIC_API_KEY in your .env file.".

Definition chat_with_claude (anthropic : option messages_api)
    (message context : string) : string :=
  match anthropic with
  | None => not_configured
  | Some create =>
      let full_message :=
        if String.eqb context "" then message
        else context ++ newline ++ newline ++ message in
      match create full_message with
      | Ok text => text
      | Raise e => "❌ Error calling Claude: " ++ str_exn e
      end
  end.

(** Lines 239-244: the context built from [st.session_state.papers_data]. *)
Definition context_line (p : paper) : string :=
  "- " ++ title p ++ " by " ++ authors_str p ++ newline ++
  "  Summary: " ++ str_take 200 (summary p) ++ "..." ++ newline ++ newline.

Definition build_context (papers_data : list paper) : string :=
  match papers_data with
  | [] => ""
  | _ =>
      fold_left (fun context p => context ++ context_line p)
                (firstn 3 papers_data)
                ("Here are some recent papers I found:" ++ newline ++ newline)
  end.

Record session := {
  papers_data : list paper;
  chat_history : list turn
}.

(** The chat input handler; no submission, or an empty one, does nothing. *)
Definition on_chat_input (anthropic : option messages_api) (prompt : string)
    (s : session) : session :=
  if String.eqb prompt "" then s
  else
    let history1 :=
      (chat_history s ++ [{| turn_role := user; content := prompt |}])%list in
    let context := build_context (papers_data s) in
    let response := chat_with_claude anthropic prompt context in
    {| papers_data := papers_data s;
       chat_history :=
         (history1 ++ [{| turn_role := assistant; content := response |}])%list |}.

(** The Clear Chat button. *)
Definition clear_chat (s : session) : session :=
  {| papers_data := papers_data s; chat_history := [] |}.

(** The search form: the result set is replaced only by a non-empty one. *)
Definition on_search (client : arxiv_client) (slot : nat) (search_topic : string)
    (max_results : Z) (ws : world * session) : world * session :=
  let (w, s) := ws in
  if String.eqb search_topic "" then ws
  else
    let (papers, w') := search_papers client slot search_topic max_results w in
    match papers with
    | [] => (st_warning "No papers found. Try a different search term." w', s)
    | _ =>
        (st_success ("Found " ++ str_of_nat (length papers) ++ " papers!") w',
         {| papers_data := papers; chat_history := chat_history s |})
    end.

(** What the user does in one run of the script. *)
Inductive action :=
| SearchForm (client : arxiv_client) (slot : nat) (search_topic : string) (max_results : Z)
| ChatInput (anthropic : option messages_api) (prompt : string)
| ClearChatButton.

Definition step (ws : world * session) (a : action) : world * session :=
  match a with
  | SearchForm client slot topic n => on_search client slot topic n ws
  | ChatInput anthropic prompt => (fst ws, on_chat_input anthropic prompt (snd ws))
  | ClearChatButton => (fst ws, clear_chat (snd ws))
  end.

Definition run (actions : list action) (ws : world * session) : world * session :=
  fold_left step actions ws.

Definition start : world * session :=
  ({| disk := []; shown := [] |}, {| papers_data := []; chat_history := [] |}).

(** User and assistant turns alternate, user first, in pairs. *)
Fixpoint alternates (log : list turn) : bool :=
  match log with
  | [] => true
  | u :: a :: rest =>
      match turn_role u, turn_role a with
      | user, assistant => alternates rest
      | _, _ => false
      end
  | _ => false
  end.

(** ** Notions used in the statements *)

(** The last record of a sequence that carries a given identifier. *)
Fixpoint last_with_id (i : string) (records : list paper) : option paper :=
  match records with
  | [] => None
  | p :: rest =>
      match last_with_id i rest with
      | Some q => Some q
      | None => if String.eqb i (paper_id p) then Some p else None
      end
  end.

(** An entry of [PAPER_DIR] that the loop of [get_paper_info] walks past
    when it looks for [i]: not a directory, no readable [papers_info.json],
    or a bucket without [i]. *)
Definition passes (i : string) (x : node) : bool :=
  match x with
  | RegularFile => true
  | Directory Missing => true
  | Directory Folder => true
  | Directory (Malformed _) => false
  | Directory (Json b) =>
      match dict_get i b with
      | Some _ => false
      | None => true
      end
  end.

Definition all_pass (i : string) (items : fs) : bool :=
  forallb (fun e => passes i (snd e)) items.

(** What a walk over [items] in search of [i] answers: the entry of the
    first bucket that has [i], nothing when every entry is walked past, or
    the error of the first [papers_info.json] that cannot be parsed. *)
Definition first_match (i : string) (items : fs) (r : result (option entry)) : Prop :=
  match r with
  | Ok (Some v) =>
      exists before name b after,
        items = (before ++ (name, Directory (Json b)) :: after)%list /\
        all_pass i before = true /\ dict_get i b = Some v
  | Ok None => all_pass i items = true
  | Raise e =>
      exists before name why after,
        items = (before ++ (name, Directory (Malformed why)) :: after)%list /\
        all_pass i before = true /\ e = JSONDecodeError why
  end.

(** The capital and the small form of each letter among the code points
    below 256: the twenty-six of the alphabet, then the accented capitals
    192 to 214 and 216 to 222, whose small forms stand 32 places on. *)
Definition case_pairs : list (ascii * ascii) :=
  (combine (list_ascii_of_string "ABCDEFGHIJKLMNOPQRSTUVWXYZ")
           (list_ascii_of_string "abcdefghijklmnopqrstuvwxyz") ++
   map (fun n => (ascii_of_nat n, ascii_of_nat (n + 32))) (seq 192 23 ++ seq 216 7))%list.

(** Two characters that differ at most in letter case or as space and
    underscore. *)
Inductive alike_char : ascii -> ascii -> Prop :=
| alike_same c : alike_char c c
| alike_lowered c d : In (c, d) case_pairs -> alike_char c d
| alike_raised c d : In (c, d) case_pairs -> alike_char d c
| alike_space_underscore : alike_char " " "_"
| alike_underscore_space : alike_char "_" " ".

(** Two topics that differ only in that way, character by character. *)
Inductive alike : string -> string -> Prop :=
| alike_nil : alike "" ""
| alike_cons c d s t : alike_char c d -> alike s t -> alike (String c s) (String d t).

(** Nothing was reported between two worlds. *)
Definition quiet (before after : world) : Prop := shown after = shown before.

(** ** Sample data *)

Fixpoint str_repeat (c : ascii) (n : nat) : string :=
  match n with
  | 0 => ""
  | S k => String c (str_repeat c k)
  end.

Definition sample_result (i t s : string) : arxiv_result :=
  {| get_short_id := i;
     r_title := t;
     r_authors := ["A. Turing"; "E. Noether"];
     r_summary := s;
     r_pdf_url := "https://arxiv.org/pdf/" ++ i;
     r_published := "2021-06-02";
     r_categories := ["quant-ph"; "cs.CC"];
     r_primary_category := "quant-ph" |}.

Definition sample_paper (i t s : string) : paper := paper_info_of (sample_result i t s).

Definition empty_world : world := {| disk := []; shown := [] |}.

(** A collaborator that yields the given items and ends normally. *)
Definition yields (items : list arxiv_result) : arxiv_client :=
  fun _ _ => (items, None).

(** A collaborator that fails before it yields anything. *)
Definition fails (msg : string) : arxiv_client :=
  fun _ _ => ([], Some (CollaboratorError msg)).

(** A chat client whose call raises. *)
Definition unreachable_api : messages_api :=
  fun _ => Raise (CollaboratorError "Connection error.").

(** A chat client that answers. *)
Definition echo_api : messages_api := fun full_message => Ok full_message.

(** One session: a question before any key is set, a search, a question
    whose call fails, a clear, a question that is answered. *)
Definition sample_actions : list action :=
  [ ChatInput None "What is a qubit?";
    SearchForm (yields [sample_result "2106.01234v1" "On qubits" "About qubits."])
               0 "Quantum Computing" 5;
    ChatInput (Some unreachable_api) "Summarise the first paper.";
    ClearChatButton;
    ChatInput (Some echo_api) "Again, please." ].

(** ** The sidebar and the analysis tab *)

Definition is_dir (x : node) : bool :=
  match x with
  | Directory _ => true
  | RegularFile => false
  end.

(** Line 175: [[d for d in os.listdir(PAPER_DIR) if os.path.isdir(...)]]. *)
Definition saved_topics (d : fs) : list string :=
  map fst (filter (fun e => is_dir (snd e)) d).

(** [s.split(sep)[0]] for a one-character [sep]. *)
Fixpoint split_head (sep : ascii) (s : string) : string :=
  match s with
  | EmptyString => EmptyString
  | String c rest =>
      if Ascii.eqb c sep then EmptyString else String c (split_head sep rest)
  end.

(** Lines 275 and 280: [lambda x: x.split('-')[0]]. *)
Definition year_of (published : string) : string := split_head "-" published.

(** ** Further notions used in the statements *)

(** The calls of [save_papers_to_file] raise on this key and this disk:
    a NUL in the key, a key of more than [NAME_MAX] bytes, a regular file
    under the key, or a directory where [papers_info.json] should be. *)
Definition save_refused (name : string) (d : fs) : bool :=
  str_mem nul name || (NAME_MAX <? utf8_length name)%nat ||
  match lookup name d with
  | Some RegularFile => true
  | Some (Directory Folder) => true
  | _ => false
  end.

(** No [papers_info.json] of the disk is unparseable. *)
Definition readable (d : fs) : bool :=
  forallb (fun e => match snd e with
                    | Directory (Malformed _) => false
                    | _ => true
                    end) d.

(** Some bucket of the disk has the identifier. *)
Definition held (i : string) (d : fs) : Prop :=
  exists name b v, In (name, Directory (Json b)) d /\ dict_get i b = Some v.

(** The contents of the user turns of a log, in order. *)
Definition user_turns (log : list turn) : list string :=
  map content (filter (fun t => match turn_role t with
                                | user => true
                                | assistant => false
                                end) log).

(** The prompts that a sequence of actions leaves in the log, given those
    already there: a clear drops them all, a non-empty submission adds
    one. *)
Definition submitted (already : list string) (actions : list action) : list string :=
  fold_left (fun acc a =>
               match a with
               | ChatInput _ prompt =>
                   if String.eqb prompt "" then acc else (acc ++ [prompt])%list
               | ClearChatButton => []
               | SearchForm _ _ _ _ => acc
               end) actions already.

(** Every search of the sequence has a topic whose key is a single path
    component (a search with an empty topic is not run at all). *)
Definition plain_searches (actions : list action) : bool :=
  forallb (fun a =>
             match a with
             | SearchForm _ _ search_topic _ =>
                 String.eqb search_topic "" || path_component (topic_dir search_topic)
             | _ => true
             end) actions.

(** The identifier and the persisted fields of a record. *)
Definition persisted (p : paper) : string * entry := (paper_id p, entry_of p).

(** A disk as the program alone leaves it: names occur once, are topic
    keys, and each stands for a bucket without a repeated identifier. *)
Definition program_disk (d : fs) : Prop :=
  NoDup (map fst d) /\
  forall n x, In (n, x) d ->
    topic_dir n = n /\
    exists b, x = Directory (Json b) /\ NoDup (dict_keys b).

(** * Properties *)

(** ** Dicts *)

Section Dict.

Lemma dict_get_set_eq k v d : dict_get k (dict_set k v d) = Some v.
Proof.
  induction d as [|[k' v'] d IH]; simpl.
  - now rewrite String.eqb_refl.
  - destruct (String.eqb k k') eqn:E; simpl; rewrite E; auto.
Qed.

Lemma dict_get_set_ne k k' v d :
  k <> k' -> dict_get k (dict_set k' v d) = dict_get k d.
Proof.
  intros Hne. induction d as [|[k0 v0] d IH]; simpl.
  - destruct (String.eqb k k') eqn:E; auto.
    apply String.eqb_eq in E. contradiction.
  - destruct (String.eqb k' k0) eqn:E; simpl.
    + apply String.eqb_eq in E. subst k0.
      apply String.eqb_neq in Hne. now rewrite Hne.
    + now rewrite IH.
Qed.

Lemma dict_keys_set k v d i :
  In i (dict_keys (dict_set k v d)) <-> i = k \/ In i (dict_keys d).
Proof.
  unfold dict_keys. induction d as [|[k' v'] d IH]; simpl.
  - intuition.
  - destruct (String.eqb k k') eqn:E; simpl.
    + apply String.eqb_eq in E. subst k'. intuition.
    + rewrite IH. intuition.
Qed.

Lemma dict_set_NoDup k v d :
  NoDup (dict_keys d) -> NoDup (dict_keys (dict_set k v d)).
Proof.
  unfold dict_keys. induction d as [|[k' v'] d IH]; simpl; intros Hnd.
  - constructor; [intros [] | constructor].
  - inversion Hnd as [|? ? Hnotin Hrest]; subst.
    destruct (String.eqb k k') eqn:E; simpl.
    + now constructor.
    + constructor; auto.
      intros Hin. apply (dict_keys_set k v d k') in Hin.
      destruct Hin as [->|Hin]; [|contradiction].
      now rewrite String.eqb_refl in E.
Qed.

Lemma dict_get_In k v d : dict_get k d = Some v -> In (k, v) d.
Proof.
  induction d as [|[k' v'] d IH]; simpl; [discriminate|].
  destruct (String.eqb k k') eqn:E.
  - apply String.eqb_eq in E. intros [= ->]. subst. now left.
  - auto.
Qed.

Lemma dict_get_None k d : dict_get k d = None <-> ~ In k (dict_keys d).
Proof.
  unfold dict_keys. induction d as [|[k' v'] d IH]; simpl.
  - intuition.
  - destruct (String.eqb k k') eqn:E.
    + apply String.eqb_eq in E. subst. split; [discriminate | intuition].
    + apply String.eqb_neq in E. rewrite IH. intuition congruence.
Qed.

Lemma In_dict_get k v d : NoDup (dict_keys d) -> In (k, v) d -> dict_get k d = Some v.
Proof.
  unfold dict_keys. induction d as [|[k' v'] d IH]; simpl; intros Hnd Hin; [easy|].
  inversion Hnd as [|? ? Hnotin Hrest]; subst.
  destruct Hin as [[= -> ->]|Hin].
  - now rewrite String.eqb_refl.
  - destruct (String.eqb k k') eqn:E; auto.
    apply String.eqb_eq in E. subst k'.
    exfalso. apply Hnotin. now apply (in_map fst) in Hin.
Qed.

End Dict.

(** ** The loop that fills [papers_info] *)

Section PapersInfo.

Let fill (acc : bucket) (records : list paper) : bucket :=
  fold_left (fun papers_info p => dict_set (paper_id p) (entry_of p) papers_info)
            records acc.

Lemma fill_get i records : forall acc,
  dict_get i (fill acc records) =
  match last_with_id i records with
  | Some p => Some (entry_of p)
  | None => dict_get i acc
  end.
Proof.
  induction records as [|p rest IH]; intros acc; simpl; [reflexivity|].
  unfold fill in *. simpl. rewrite IH.
  destruct (last_with_id i rest); [reflexivity|].
  destruct (String.eqb i (paper_id p)) eqn:E.
  - apply String.eqb_eq in E. subst i. apply dict_get_set_eq.
  - apply String.eqb_neq in E. now apply dict_get_set_ne.
Qed.

Lemma fill_keys i records : forall acc,
  In i (dict_keys (fill acc records)) <->
  In i (map paper_id records) \/ In i (dict_keys acc).
Proof.
  induction records as [|p rest IH]; intros acc; simpl; [intuition|].
  unfold fill in *. simpl. rewrite IH, dict_keys_set. intuition.
Qed.

Lemma fill_NoDup records : forall acc,
  NoDup (dict_keys acc) -> NoDup (dict_keys (fill acc records)).
Proof.
  induction records as [|p rest IH]; intros acc Hnd; simpl; [exact Hnd|].
  unfold fill in *. simpl. apply IH. now apply dict_set_NoDup.
Qed.

Lemma papers_info_get i records :
  dict_get i (papers_info_of records) = option_map entry_of (last_with_id i records).
Proof.
  unfold papers_info_of. fold (fill [] records). rewrite fill_get.
  now destruct (last_with_id i records).
Qed.

Lemma papers_info_keys i records :
  In i (dict_keys (papers_info_of records)) <-> In i (map paper_id records).
Proof.
  unfold papers_info_of. fold (fill [] records). rewrite fill_keys. simpl. intuition.
Qed.

Lemma papers_info_NoDup records : NoDup (dict_keys (papers_info_of records)).
Proof.
  unfold papers_info_of. fold (fill [] records). apply fill_NoDup. constructor.
Qed.

End PapersInfo.

Lemma last_with_id_some i records p :
  last_with_id i records = Some p -> In p records /\ paper_id p = i.
Proof.
  induction records as [|q rest IH]; simpl; [discriminate|].
  destruct (last_with_id i rest) as [q'|].
  - intros [= ->]. destruct (IH eq_refl). auto.
  - destruct (String.eqb i (paper_id q)) eqn:E; [|discriminate].
    apply String.eqb_eq in E. intros [= ->]. auto.
Qed.

Lemma last_with_id_in records p :
  In p records -> exists q, last_with_id (paper_id p) records = Some q.
Proof.
  induction records as [|q rest IH]; simpl; [easy|].
  intros [->|Hin].
  - destruct (last_with_id (paper_id p) rest); eauto.
    rewrite String.eqb_refl. eauto.
  - destruct (IH Hin) as [q' ->]. eauto.
Qed.

Lemma last_with_id_unique records p :
  NoDup (map paper_id records) -> In p records ->
  last_with_id (paper_id p) records = Some p.
Proof.
  induction records as [|q rest IH]; simpl; [easy|].
  intros Hnd Hin. inversion Hnd as [|? ? Hnotin Hrest]; subst.
  destruct Hin as [->|Hin].
  - destruct (last_with_id (paper_id p) rest) as [q'|] eqn:E.
    + apply last_with_id_some in E. destruct E as [Hq Hid].
      exfalso. apply Hnotin. rewrite <- Hid. now apply in_map.
    + now rewrite String.eqb_refl.
  - now rewrite (IH Hrest Hin).
Qed.

(** ** The entries of [PAPER_DIR] *)

Section Disk.

Lemma lookup_app name d1 d2 :
  lookup name (d1 ++ d2)%list =
  match lookup name d1 with
  | Some x => Some x
  | None => lookup name d2
  end.
Proof.
  induction d1 as [|[n x] d1 IH]; simpl; [reflexivity|].
  now destruct (String.eqb name n).
Qed.

Lemma lookup_firstn_None name d : forall slot,
  lookup name d = None -> lookup name (firstn slot d) = None.
Proof.
  induction d as [|[n x] d IH]; intros [|slot]; simpl; auto.
  destruct (String.eqb name n); [discriminate | auto].
Qed.

Lemma lookup_insert_at name x slot d :
  lookup name d = None -> lookup name (insert_at slot (name, x) d) = Some x.
Proof.
  intros Hnone. unfold insert_at.
  rewrite lookup_app, (lookup_firstn_None _ _ slot Hnone). simpl.
  now rewrite String.eqb_refl.
Qed.

Lemma lookup_replace_node name x y d :
  lookup name d = Some y -> lookup name (replace_node name x d) = Some x.
Proof.
  induction d as [|[n z] d IH]; simpl; [discriminate|].
  destruct (String.eqb name n) eqn:E; simpl; rewrite E; auto.
Qed.

Lemma In_replace_node name x d n y :
  In (n, y) (replace_node name x d) -> n <> name -> In (n, y) d.
Proof.
  induction d as [|[m z] d IH]; simpl; [easy|].
  destruct (String.eqb name m) eqn:E; simpl.
  - apply String.eqb_eq in E. subst m.
    intros [[= <- <-]|Hin] Hne; [contradiction | auto].
  - intros [Heq|Hin] Hne; auto.
Qed.

Lemma In_insert_at slot (e e0 : string * node) d :
  In e (insert_at slot e0 d) -> e = e0 \/ In e d.
Proof.
  unfold insert_at. intros Hin.
  apply in_app_or in Hin. destruct Hin as [Hin|[Heq|Hin]]; auto.
  - right. rewrite <- (firstn_skipn slot d). apply in_or_app. now left.
  - right. rewrite <- (firstn_skipn slot d). apply in_or_app. now right.
Qed.

End Disk.

Lemma app_one_neq {A} (l : list A) (x : A) : (l ++ [x])%list <> l.
Proof.
  intros Heq. apply (f_equal (@length A)) in Heq.
  rewrite length_app in Heq. simpl in Heq. lia.
Qed.

(** ** [save_papers_to_file] *)

Section Save.

Variables (slot : nat) (topic : string) (records : list paper) (w : world).

Let w' := save_papers_to_file slot topic records w.

(** A save either writes the bucket and reports nothing, or reports one
    error and leaves the disk as it was. *)
Lemma save_cases :
  (quiet w w' /\
   lookup (topic_dir topic) (disk w') =
     Some (Directory (Json (papers_info_of records))) /\
   forall n x, In (n, x) (disk w') -> n <> topic_dir topic -> In (n, x) (disk w))
  \/
  (disk w' = disk w /\
   exists e, shown w' = app (shown w) ["Error saving papers: " ++ str_exn e]).
Proof.
  subst w'. unfold save_papers_to_file, bind, makedirs, dump_json, ret, raise, quiet.
  destruct (str_mem nul (topic_dir topic));
    [right; split; [reflexivity | eexists (ValueError _); reflexivity]|].
  destruct (NAME_MAX <? utf8_length (topic_dir topic))%nat;
    [right; split; [reflexivity | eexists (FileNameTooLong _); reflexivity]|].
  destruct (lookup (topic_dir topic) (disk w)) as [[|i]|] eqn:L.
  - right; split; [reflexivity | eexists (FileExistsError _); reflexivity].
  - rewrite L.
    destruct i;
      try (left; cbn [disk shown]; repeat split;
           [ eapply lookup_replace_node; eassumption
           | intros n x Hin Hne; eapply In_replace_node; eassumption ]).
    right; split; [reflexivity | eexists (IsADirectoryError _); reflexivity].
  - rewrite (lookup_insert_at _ _ _ _ L). left. cbn [disk shown]. repeat split.
    + eapply lookup_replace_node. now apply lookup_insert_at.
    + intros n x Hin Hne.
      apply In_replace_node in Hin; [|assumption].
      apply In_insert_at in Hin.
      destruct Hin as [[= -> _]|Hin]; [contradiction|assumption].
Qed.

Lemma save_quiet :
  quiet w w' ->
  lookup (topic_dir topic) (disk w') =
    Some (Directory (Json (papers_info_of records))) /\
  forall n x, In (n, x) (disk w') -> n <> topic_dir topic -> In (n, x) (disk w).
Proof.
  intros Hq. destruct save_cases as [[_ H]|[_ [e He]]]; [exact H|].
  unfold quiet in Hq. fold w' in He. rewrite He in Hq.
  now apply app_one_neq in Hq.
Qed.

Lemma save_bucket :
  quiet w w' -> bucket_of (topic_dir topic) (disk w') = Some (papers_info_of records).
Proof.
  intros Hq. unfold bucket_of. now rewrite (proj1 (save_quiet Hq)).
Qed.

End Save.

(** ** Text *)

Section Text.

Lemma str_app_assoc (s t u : string) : (s ++ t) ++ u = s ++ (t ++ u).
Proof. induction s as [|c s IH]; simpl; [reflexivity | now rewrite IH]. Qed.

Lemma str_app_nil_r (s : string) : s ++ "" = s.
Proof. induction s as [|c s IH]; simpl; [reflexivity | now rewrite IH]. Qed.

Lemma prefix_iff (s t : string) :
  String.prefix s t = true <-> exists post, t = s ++ post.
Proof.
  revert t. induction s as [|c s IH]; intros t; simpl.
  - destruct t; split; eauto.
  - destruct t as [|d t]; simpl.
    + split; [discriminate | intros [post H]; discriminate].
    + destruct (ascii_dec c d) as [->|Hne].
      * rewrite IH. split; intros [post H]; exists post; congruence.
      * split; [discriminate | intros [post H]; congruence].
Qed.

(** [str_contains] decides "occurs in". *)
Lemma str_contains_iff (needle hay : string) :
  str_contains needle hay = true <-> exists pre post, hay = pre ++ needle ++ post.
Proof.
  induction hay as [|c hay IH].
  - cbn [str_contains]. rewrite orb_false_r, prefix_iff. split.
    + intros [post H]. exists "", post. exact H.
    + intros [pre [post H]]. destruct pre; [eauto | discriminate].
  - cbn [str_contains]. rewrite orb_true_iff, prefix_iff, IH. split.
    + intros [[post H]|[pre [post H]]].
      * exists "", post. exact H.
      * exists (String c pre), post. simpl. now rewrite H.
    + intros [[|d pre] [post H]].
      * left. eauto.
      * right. simpl in H. injection H as _ H. eauto.
Qed.

Lemma str_take_all n s : String.length s <= n -> str_take n s = s.
Proof.
  revert n. induction s as [|c s IH]; intros [|n]; simpl; intros Hle;
    try reflexivity; try lia.
  rewrite IH; [reflexivity | lia].
Qed.

Lemma str_take_length n s : String.length (str_take n s) = Nat.min n (String.length s).
Proof.
  revert n. induction s as [|c s IH]; intros [|n]; simpl; auto.
Qed.

Lemma str_take_prefix n s : exists rest, s = str_take n s ++ rest.
Proof.
  revert n. induction s as [|c s IH]; intros [|n]; simpl; eauto.
  destruct (IH n) as [rest H]. exists rest. now rewrite <- H.
Qed.

Lemma lower_char_idem c : lower_char (lower_char c) = lower_char c.
Proof. destruct c as [[] [] [] [] [] [] [] []]; reflexivity. Qed.






End Text.

(** ** The context *)

Section Context.

Let lines (ps : list paper) : string :=
  fold_right (fun p rest => context_line p ++ rest) "" ps.

Lemma fold_context ps : forall acc,
  fold_left (fun context p => context ++ context_line p) ps acc = acc ++ lines ps.
Proof.
  induction ps as [|p ps IH]; intros acc; simpl.
  - now rewrite str_app_nil_r.
  - now rewrite IH, str_app_assoc.
Qed.

Lemma lines_app ps qs : lines (ps ++ qs)%list = lines ps ++ lines qs.
Proof.
  induction ps as [|p ps IH]; [reflexivity|].
  change (lines ((p :: ps) ++ qs)%list) with (context_line p ++ lines (ps ++ qs)%list).
  change (lines (p :: ps)) with (context_line p ++ lines ps).
  now rewrite IH, str_app_assoc.
Qed.

Lemma build_context_cons p ps :
  build_context (p :: ps) =
  ("Here are some recent papers I found:" ++ newline ++ newline) ++
  lines (firstn 3 (p :: ps)).
Proof. unfold build_context. apply fold_context. Qed.

(** The two lines of a record among the first three stand in the context. *)
Lemma build_context_nth papers n r :
  nth_error papers n = Some r -> n < 3 ->
  exists pre post, build_context papers = pre ++ context_line r ++ post.
Proof.
  intros Hnth Hlt.
  assert (Hin : nth_error (firstn 3 papers) n = Some r)
    by (rewrite nth_error_firstn; destruct (Nat.ltb_spec n 3); [assumption | lia]).
  destruct papers as [|p ps]; [destruct n; discriminate|].
  rewrite build_context_cons.
  apply nth_error_split in Hin. destruct Hin as [l1 [l2 [Heq _]]].
  rewrite Heq, lines_app.
  exists (("Here are some recent papers I found:" ++ newline ++ newline) ++ lines l1),
         (lines l2).
  now rewrite (str_app_assoc _ (lines l1)).
Qed.

End Context.

(** ** [get_paper_info] *)

Section Scan.

Variable i : string.

(** The bucket that stands under [name] answers, when every entry under
    another name is walked past. *)
Lemma scan_found name b v : forall items,
  lookup name items = Some (Directory (Json b)) ->
  dict_get i b = Some v ->
  (forall n x, In (n, x) items -> n <> name -> passes i x = true) ->
  scan i items = Ok (Some v).
Proof.
  induction items as [|[n x] items IH]; simpl; [discriminate|].
  intros Hlook Hget Hothers.
  destruct (String.eqb name n) eqn:E.
  - injection Hlook as ->. now rewrite Hget.
  - apply String.eqb_neq in E.
    assert (Hpass : passes i x = true) by (apply (Hothers n); auto).
    assert (Hrest : scan i items = Ok (Some v)) by (apply IH; eauto).
    destruct x as [|[|b'|why|]]; simpl in Hpass; try assumption; try discriminate.
    now destruct (dict_get i b').
Qed.

Lemma first_match_skip n x items r :
  passes i x = true -> first_match i items r -> first_match i ((n, x) :: items) r.
Proof.
  intros Hpass H. destruct r as [[v|]|e]; simpl in *.
  - destruct H as (before & name & b & after & -> & Hall & Hget).
    exists ((n, x) :: before), name, b, after. simpl. rewrite Hpass. auto.
  - now rewrite Hpass.
  - destruct H as (before & name & why & after & -> & Hall & ->).
    exists ((n, x) :: before), name, why, after. simpl. rewrite Hpass. auto.
Qed.

(** What the loop returns, read off the listing. *)
Lemma scan_spec : forall items, first_match i items (scan i items).
Proof.
  induction items as [|[n x] items IH]; [reflexivity|].
  destruct x as [|[|b|why|]]; cbn [scan].
  - now apply first_match_skip.
  - now apply first_match_skip.
  - destruct (dict_get i b) as [v|] eqn:G.
    + exists [], n, b, items. auto.
    + apply first_match_skip; [|exact IH]. simpl. now rewrite G.
  - exists [], n, why, items. auto.
  - now apply first_match_skip.
Qed.

End Scan.

(** ** The chat log *)

Section Log.

Lemma alternates_app l2 : forall l1,
  (alternates l1 = true -> alternates (l1 ++ l2) = alternates l2) /\
  (forall x, alternates (x :: l1) = true ->
             alternates ((x :: l1) ++ l2) = alternates l2).
Proof.
  induction l1 as [|y l1 [IH1 IH2]]; split.
  - reflexivity.
  - intros x H. discriminate.
  - apply IH2.
  - intros x H. cbn [alternates app] in *.
    destruct (turn_role x); [|discriminate].
    destruct (turn_role y); [discriminate|]. auto.
Qed.


Lemma on_chat_input_log anthropic prompt s :
  prompt <> "" ->
  chat_history (on_chat_input anthropic prompt s) =
  (chat_history s ++
   [ {| turn_role := user; content := prompt |};
     {| turn_role := assistant;
        content := chat_with_claude anthropic prompt (build_context (papers_data s)) |} ])%list.
Proof.
  intros Hne. unfold on_chat_input.
  apply String.eqb_neq in Hne. rewrite Hne. cbn [chat_history].
  now rewrite <- app_assoc.
Qed.

Lemma on_chat_input_alternates anthropic prompt s :
  alternates (chat_history s) = true ->
  alternates (chat_history (on_chat_input anthropic prompt s)) = true.
Proof.
  intros H. destruct (String.eqb prompt "") eqn:E.
  - unfold on_chat_input. now rewrite E.
  - apply String.eqb_neq in E. rewrite (on_chat_input_log _ _ _ E).
    now rewrite (proj1 (alternates_app _ _) H).
Qed.

Lemma on_search_log client slot topic n ws :
  chat_history (snd (on_search client slot topic n ws)) = chat_history (snd ws).
Proof.
  destruct ws as [w s]. unfold on_search.
  destruct (String.eqb topic ""); [reflexivity|].
  destruct (search_papers client slot topic n w) as [[|p ps] w']; reflexivity.
Qed.

Lemma step_alternates ws a :
  alternates (chat_history (snd ws)) = true ->
  alternates (chat_history (snd (step ws a))) = true.
Proof.
  intros H. destruct a as [client slot topic n|anthropic prompt|]; cbn [step snd].
  - now rewrite on_search_log.
  - now apply on_chat_input_alternates.
  - reflexivity.
Qed.

Lemma run_alternates actions : forall ws,
  alternates (chat_history (snd ws)) = true ->
  alternates (chat_history (snd (run actions ws))) = true.
Proof.
  unfold run. induction actions as [|a actions IH]; intros ws H; simpl; [exact H|].
  apply IH. now apply step_alternates.
Qed.

End Log.

(** * The claims *)

(** ** Search *)

(** C1, as stated, fails: with [papers/x] a regular file the save raises
    [FileExistsError]; [save_papers_to_file] reports it itself, and
    [search_papers] still returns the record it found. *)
Lemma search_keeps_records_when_save_fails :
  fst (search_papers (yields [sample_result "2106.01234v1" "On x" "About x."]) 0 "x" 5
         {| disk := [("x", RegularFile)]; shown := [] |})
    = [sample_paper "2106.01234v1" "On x" "About x."] /\
  fst (search_papers (yields [sample_result "2106.01234v1" "On x" "About x."]) 0 "x" 5
         {| disk := [("x", RegularFile)]; shown := [] |}) <> [] /\
  shown (snd (search_papers (yields [sample_result "2106.01234v1" "On x" "About x."]) 0 "x" 5
                {| disk := [("x", RegularFile)]; shown := [] |}))
    = ["Error saving papers: [Errno 17] File exists: 'papers/x'"].
Proof. repeat split. discriminate. Qed.

(** C1, amended: [search_papers] always returns.  When the search
    collaborator fails it returns the empty list and reports the failure,
    and the disk is untouched.  When the collaborator succeeds it returns
    the normalized records in the order received, also when the save
    fails: [save_papers_to_file] then reports its own error, once. *)
Theorem search_papers_total client slot topic max_results w :
  match client topic max_results with
  | (_, Some e) =>
      search_papers client slot topic max_results w =
      ([], st_error ("Error searching papers: " ++ str_exn e) w)
  | (items, None) =>
      fst (search_papers client slot topic max_results w) = map paper_info_of items /\
      (quiet w (snd (search_papers client slot topic max_results w)) \/
       exists e,
         shown (snd (search_papers client slot topic max_results w)) =
         app (shown w) ["Error saving papers: " ++ str_exn e])
  end.
Proof.
  unfold search_papers.
  destruct (client topic max_results) as [items [e|]]; [reflexivity|].
  cbn [fst snd]. split; [reflexivity|].
  destruct (save_cases slot topic (map paper_info_of items) w) as [[Hq _]|[_ Hfail]]; auto.
Qed.

(** ** Save and look up *)

(** C2, as stated, fails: two records of one sequence carry the same
    identifier; the look-up of the first returns the projection of the
    second. *)
Lemma round_trip_fails_for_repeated_identifier :
  In (sample_paper "2106.01234v1" "Draft" "First text.")
     [sample_paper "2106.01234v1" "Draft" "First text.";
      sample_paper "2106.01234v1" "Final" "Second text."] /\
  fst (get_paper_info "2106.01234v1"
         (save_papers_to_file 0 "quantum computing"
            [sample_paper "2106.01234v1" "Draft" "First text.";
             sample_paper "2106.01234v1" "Final" "Second text."]
            empty_world))
    = Some (entry_of (sample_paper "2106.01234v1" "Final" "Second text.")) /\
  entry_of (sample_paper "2106.01234v1" "Final" "Second text.") <>
  entry_of (sample_paper "2106.01234v1" "Draft" "First text.").
Proof. repeat split; [now left | discriminate]. Qed.

(** C2, amended: after a save that reported no error, under a topic key
    that is a single path component, [get_paper_info] on the identifier of
    a saved record returns the projection of the last record of the
    sequence with that identifier (the record itself when identifiers are
    distinct), provided every other entry of [PAPER_DIR] is walked past:
    no other bucket holds the identifier and no other [papers_info.json]
    is unparseable. *)
Theorem round_trip slot topic records w r :
  path_component (topic_dir topic) = true ->
  quiet w (save_papers_to_file slot topic records w) ->
  In r records ->
  (forall n x, In (n, x) (disk w) -> n <> topic_dir topic ->
               passes (paper_id r) x = true) ->
  exists r',
    last_with_id (paper_id r) records = Some r' /\
    get_paper_info (paper_id r) (save_papers_to_file slot topic records w) =
      (Some (entry_of r'), save_papers_to_file slot topic records w) /\
    e_title (entry_of r') = title r' /\
    e_authors (entry_of r') = authors r' /\
    e_summary (entry_of r') = summary r' /\
    e_pdf_url (entry_of r') = pdf_url r' /\
    e_published (entry_of r') = published r' /\
    (NoDup (map paper_id records) -> r' = r).
Proof.
  intros _ Hq Hin Hothers.
  destruct (save_quiet slot topic records w Hq) as [Hlook Hrest].
  destruct (last_with_id_in records r Hin) as [r' Hlast].
  exists r'. split; [exact Hlast|]. split.
  - unfold get_paper_info.
    rewrite (scan_found (paper_id r) (topic_dir topic)
               (papers_info_of records) (entry_of r')); auto.
    + now rewrite papers_info_get, Hlast.
    + intros n x Hn Hne. apply (Hothers n); auto.
  - repeat split. intros Hnd.
    rewrite (last_with_id_unique records r Hnd Hin) in Hlast. congruence.
Qed.

Lemma round_trip_witness :
  exists r',
    last_with_id "2106.01234v1"
      [sample_paper "2106.01234v1" "Draft" "First text.";
       sample_paper "1905.00001v2" "Other" "Other text."] = Some r' /\
    get_paper_info "2106.01234v1"
      (save_papers_to_file 1 "Quantum Computing"
         [sample_paper "2106.01234v1" "Draft" "First text.";
          sample_paper "1905.00001v2" "Other" "Other text."]
         {| disk := [("notes.txt", RegularFile);
                     ("graphs", Directory (Json [("0704.0001v1",
                        entry_of (sample_paper "0704.0001v1" "Old" "Old text."))]))];
            shown := [] |}) =
      (Some (entry_of r'),
       save_papers_to_file 1 "Quantum Computing"
         [sample_paper "2106.01234v1" "Draft" "First text.";
          sample_paper "1905.00001v2" "Other" "Other text."]
         {| disk := [("notes.txt", RegularFile);
                     ("graphs", Directory (Json [("0704.0001v1",
                        entry_of (sample_paper "0704.0001v1" "Old" "Old text."))]))];
            shown := [] |}) /\
    e_title (entry_of r') = title r' /\
    e_authors (entry_of r') = authors r' /\
    e_summary (entry_of r') = summary r' /\
    e_pdf_url (entry_of r') = pdf_url r' /\
    e_published (entry_of r') = published r' /\
    (NoDup (map paper_id
       [sample_paper "2106.01234v1" "Draft" "First text.";
        sample_paper "1905.00001v2" "Other" "Other text."]) ->
     r' = sample_paper "2106.01234v1" "Draft" "First text.").
Proof.
  apply (round_trip 1 "Quantum Computing"
           [sample_paper "2106.01234v1" "Draft" "First text.";
            sample_paper "1905.00001v2" "Other" "Other text."]
           {| disk := [("notes.txt", RegularFile);
                       ("graphs", Directory (Json [("0704.0001v1",
                          entry_of (sample_paper "0704.0001v1" "Old" "Old text."))]))];
              shown := [] |}
           (sample_paper "2106.01234v1" "Draft" "First text.")).
  - reflexivity.
  - reflexivity.
  - simpl. auto.
  - intros n x [H|[H|[]]] _; injection H as <- <-; reflexivity.
Defined.

Lemma papers_info_entries records i v :
  dict_get i (papers_info_of records) = Some v ->
  exists r, In r records /\ paper_id r = i /\ v = entry_of r.
Proof.
  rewrite papers_info_get.
  destruct (last_with_id i records) as [r|] eqn:E; [|discriminate].
  intros [= <-]. apply last_with_id_some in E. destruct E. eauto.
Qed.

(** C3: when the second of two saves under one topic reports no error,
    the bucket of that topic is the projection of the second sequence:
    every entry retrievable there is the projection of one of its records,
    and the identifier of a record of the first sequence is present only
    if a record of the second sequence carries it. *)
Theorem overwrite_semantics slot1 slot2 X A B w :
  quiet (save_papers_to_file slot1 X A w)
        (save_papers_to_file slot2 X B (save_papers_to_file slot1 X A w)) ->
  bucket_of (topic_dir X)
    (disk (save_papers_to_file slot2 X B (save_papers_to_file slot1 X A w)))
    = Some (papers_info_of B) /\
  (forall i v, dict_get i (papers_info_of B) = Some v ->
     exists r, In r B /\ paper_id r = i /\ v = entry_of r) /\
  (forall a, In a A -> ~ In (paper_id a) (map paper_id B) ->
     dict_get (paper_id a) (papers_info_of B) = None).
Proof.
  intros Hq. split; [now apply save_bucket|]. split.
  - apply papers_info_entries.
  - intros a _ Hnot. apply dict_get_None. now rewrite papers_info_keys.
Qed.

Lemma overwrite_semantics_witness :
  bucket_of (topic_dir "X")
    (disk (save_papers_to_file 0 "X" [sample_paper "1905.00001v2" "B" "Text b."]
             (save_papers_to_file 0 "X"
                [sample_paper "2106.01234v1" "A" "Text a."] empty_world)))
    = Some (papers_info_of [sample_paper "1905.00001v2" "B" "Text b."]) /\
  (forall i v,
     dict_get i (papers_info_of [sample_paper "1905.00001v2" "B" "Text b."]) = Some v ->
     exists r, In r [sample_paper "1905.00001v2" "B" "Text b."] /\
               paper_id r = i /\ v = entry_of r) /\
  (forall a, In a [sample_paper "2106.01234v1" "A" "Text a."] ->
     ~ In (paper_id a) (map paper_id [sample_paper "1905.00001v2" "B" "Text b."]) ->
     dict_get (paper_id a) (papers_info_of [sample_paper "1905.00001v2" "B" "Text b."])
       = None).
Proof.
  apply (overwrite_semantics 0 0 "X"
           [sample_paper "2106.01234v1" "A" "Text a."]
           [sample_paper "1905.00001v2" "B" "Text b."] empty_world).
  reflexivity.
Defined.

(** C4, as stated, fails: the topic "alpha" is searched before "beta", both
    results hold the same identifier, and the file system lists the newer
    directory first; the look-up answers from the bucket of "beta". *)
Lemma listing_order_is_not_search_order :
  map fst
    (disk (snd (search_papers (yields [sample_result "2106.01234v1" "Second" "Later."])
                  0 "beta" 5
             (snd (search_papers (yields [sample_result "2106.01234v1" "First" "Earlier."])
                     0 "alpha" 5 empty_world)))))
    = ["beta"; "alpha"] /\
  bucket_of "alpha"
    (disk (snd (search_papers (yields [sample_result "2106.01234v1" "Second" "Later."])
                  0 "beta" 5
             (snd (search_papers (yields [sample_result "2106.01234v1" "First" "Earlier."])
                     0 "alpha" 5 empty_world)))))
    = Some [("2106.01234v1", entry_of (sample_paper "2106.01234v1" "First" "Earlier."))] /\
  fst (get_paper_info "2106.01234v1"
         (snd (search_papers (yields [sample_result "2106.01234v1" "Second" "Later."])
                 0 "beta" 5
            (snd (search_papers (yields [sample_result "2106.01234v1" "First" "Earlier."])
                    0 "alpha" 5 empty_world)))))
    = Some (entry_of (sample_paper "2106.01234v1" "Second" "Later.")) /\
  entry_of (sample_paper "2106.01234v1" "Second" "Later.") <>
  entry_of (sample_paper "2106.01234v1" "First" "Earlier.").
Proof. repeat split. discriminate. Qed.

Lemma scan_app_pass i before rest :
  all_pass i before = true -> scan i (before ++ rest)%list = scan i rest.
Proof.
  unfold all_pass. induction before as [|[n x] before IH]; [reflexivity|].
  cbn [forallb snd app]. intros H. apply andb_prop in H. destruct H as [Hx Hall].
  destruct x as [|[|b|why|]]; cbn [scan]; simpl in Hx; auto; try discriminate.
  destruct (dict_get i b); [discriminate | auto].
Qed.

Lemma first_match_scan i items r : first_match i items r -> scan i items = r.
Proof.
  destruct r as [[v|]|e]; simpl.
  - intros (before & name & b & after & -> & Hall & Hget).
    rewrite (scan_app_pass _ _ _ Hall). cbn [scan]. now rewrite Hget.
  - intros Hall. rewrite <- (app_nil_r items). now rewrite (scan_app_pass _ _ _ Hall).
  - intros (before & name & why & after & -> & Hall & ->).
    now rewrite (scan_app_pass _ _ _ Hall).
Qed.

(** C4, amended: [get_paper_info] walks the entries of [PAPER_DIR] in the
    order [os.listdir] gives them, whatever the order of the searches was,
    and keeps no index.  It returns the entry of the first bucket in that
    order that has the identifier, and [None] when every entry is walked
    past; it also returns [None], with the error reported, when a
    [papers_info.json] that cannot be parsed comes before any match.  Some
    answer of that shape always exists, and the call returns it. *)
Theorem get_paper_info_first_listed i w :
  (exists r, first_match i (disk w) r) /\
  (forall v, first_match i (disk w) (Ok (Some v)) -> get_paper_info i w = (Some v, w)) /\
  (first_match i (disk w) (Ok None) -> get_paper_info i w = (None, w)) /\
  (forall e, first_match i (disk w) (Raise e) ->
     get_paper_info i w =
     (None, st_error ("Error retrieving paper info: " ++ str_exn e) w)).
Proof.
  split; [exists (scan i (disk w)); apply scan_spec|].
  unfold get_paper_info.
  repeat split; intros; now rewrite (first_match_scan _ _ _ H).
Qed.

Lemma get_paper_info_first_listed_witness :
  get_paper_info "2106.01234v1"
    {| disk := [("notes.txt", RegularFile);
                ("graphs", Directory (Json [("0704.0001v1",
                   entry_of (sample_paper "0704.0001v1" "Old" "Old text."))]));
                ("beta", Directory (Json [("2106.01234v1",
                   entry_of (sample_paper "2106.01234v1" "Second" "Later."))]));
                ("alpha", Directory (Json [("2106.01234v1",
                   entry_of (sample_paper "2106.01234v1" "First" "Earlier."))]))];
       shown := [] |}
  = (Some (entry_of (sample_paper "2106.01234v1" "Second" "Later.")),
     {| disk := [("notes.txt", RegularFile);
                 ("graphs", Directory (Json [("0704.0001v1",
                    entry_of (sample_paper "0704.0001v1" "Old" "Old text."))]));
                 ("beta", Directory (Json [("2106.01234v1",
                    entry_of (sample_paper "2106.01234v1" "Second" "Later."))]));
                 ("alpha", Directory (Json [("2106.01234v1",
                    entry_of (sample_paper "2106.01234v1" "First" "Earlier."))]))];
        shown := [] |}).
Proof.
  apply (proj1 (proj2 (get_paper_info_first_listed "2106.01234v1" _))).
  exists [("notes.txt", RegularFile);
          ("graphs", Directory (Json [("0704.0001v1",
             entry_of (sample_paper "0704.0001v1" "Old" "Old text."))]))],
         "beta",
         [("2106.01234v1", entry_of (sample_paper "2106.01234v1" "Second" "Later."))],
         [("alpha", Directory (Json [("2106.01234v1",
             entry_of (sample_paper "2106.01234v1" "First" "Earlier."))]))].
  repeat split.
Defined.

(** ** Topic keys *)

Example quantum_computing_key :
  topic_dir "Quantum Computing" = "quantum_computing" /\
  topic_dir "quantum computing" = "quantum_computing" /\
  topic_dir "QUANTUM_computing" = "quantum_computing".
Proof. repeat split. Qed.

Lemma case_pair_In c d :
  existsb (fun p => Ascii.eqb (fst p) c && Ascii.eqb (snd p) d) case_pairs = true ->
  In (c, d) case_pairs.
Proof.
  intros H. apply existsb_exists in H. destruct H as [[c' d'] [Hin Heq]].
  apply andb_prop in Heq. destruct Heq as [Hc Hd].
  apply Ascii.eqb_eq in Hc. apply Ascii.eqb_eq in Hd. simpl in Hc, Hd. now subst.
Qed.



Example alike_topics :
  alike "Quantum Computing" "quantum computing" /\
  alike "deep_learning" "Deep Learning".
Proof.
  split;
    repeat (apply alike_cons;
            [first [ apply alike_same
                   | apply alike_lowered; apply case_pair_In; reflexivity
                   | apply alike_raised; apply case_pair_In; reflexivity
                   | apply alike_space_underscore
                   | apply alike_underscore_space ]|]);
    apply alike_nil.
Qed.

(** ** What is persisted *)

Lemma papers_info_of_pairs records :
  papers_info_of records =
  fold_left (fun acc kv => dict_set (fst kv) (snd kv) acc)
            (combine (map paper_id records) (map entry_of records)) [].
Proof.
  unfold papers_info_of. generalize (@nil (string * entry)).
  induction records as [|p rest IH]; intros acc; simpl; [reflexivity | apply IH].
Qed.

(** C6: a save that reports no error writes, for the records it is given,
    a bucket keyed by identifier whose values hold the five fields title,
    authors, summary, pdf_url and published of a saved record with that
    identifier; every saved identifier is a key; and the bucket depends on
    nothing else of the records: two sequences with the same identifiers
    and the same five fields, whatever their categories and primary
    category, give the same bucket. *)
Theorem persisted_projection slot topic records w :
  quiet w (save_papers_to_file slot topic records w) ->
  bucket_of (topic_dir topic) (disk (save_papers_to_file slot topic records w))
    = Some (papers_info_of records) /\
  (forall i v, In (i, v) (papers_info_of records) ->
     exists r, In r records /\ i = paper_id r /\
       e_title v = title r /\ e_authors v = authors r /\ e_summary v = summary r /\
       e_pdf_url v = pdf_url r /\ e_published v = published r) /\
  (forall r, In r records -> In (paper_id r) (dict_keys (papers_info_of records))) /\
  (forall records',
     map paper_id records' = map paper_id records ->
     map entry_of records' = map entry_of records ->
     papers_info_of records' = papers_info_of records).
Proof.
  intros Hq. split; [now apply save_bucket|]. split; [|split].
  - intros i v Hin.
    apply In_dict_get in Hin; [|apply papers_info_NoDup].
    apply papers_info_entries in Hin. destruct Hin as (r & Hr & <- & ->).
    exists r. repeat split; assumption.
  - intros r Hin. apply papers_info_keys. now apply in_map.
  - intros records' Hid Hent. rewrite !papers_info_of_pairs. now rewrite Hid, Hent.
Qed.

Lemma persisted_projection_witness :
  bucket_of (topic_dir "Graph Theory")
    (disk (save_papers_to_file 0 "Graph Theory"
             [sample_paper "2106.01234v1" "A" "Text a."] empty_world))
    = Some (papers_info_of [sample_paper "2106.01234v1" "A" "Text a."]) /\
  (forall i v, In (i, v) (papers_info_of [sample_paper "2106.01234v1" "A" "Text a."]) ->
     exists r, In r [sample_paper "2106.01234v1" "A" "Text a."] /\ i = paper_id r /\
       e_title v = title r /\ e_authors v = authors r /\ e_summary v = summary r /\
       e_pdf_url v = pdf_url r /\ e_published v = published r) /\
  (forall r, In r [sample_paper "2106.01234v1" "A" "Text a."] ->
     In (paper_id r) (dict_keys (papers_info_of [sample_paper "2106.01234v1" "A" "Text a."]))) /\
  (forall records',
     map paper_id records' = map paper_id [sample_paper "2106.01234v1" "A" "Text a."] ->
     map entry_of records' = map entry_of [sample_paper "2106.01234v1" "A" "Text a."] ->
     papers_info_of records' = papers_info_of [sample_paper "2106.01234v1" "A" "Text a."]).
Proof.
  apply (persisted_projection 0 "Graph Theory"
           [sample_paper "2106.01234v1" "A" "Text a."] empty_world).
  reflexivity.
Defined.

(** C10: in a bucket written by a save that reports no error, no
    identifier occurs twice, the identifiers are those of the saved
    records, and each stands for the projection of the last record of the
    sequence that carries it. *)
Theorem last_record_wins slot topic records w :
  quiet w (save_papers_to_file slot topic records w) ->
  exists b,
    bucket_of (topic_dir topic) (disk (save_papers_to_file slot topic records w)) = Some b /\
    NoDup (dict_keys b) /\
    (forall i, In i (dict_keys b) <-> In i (map paper_id records)) /\
    (forall i, dict_get i b = option_map entry_of (last_with_id i records)) /\
    (forall before p after q,
       records = (before ++ p :: after)%list -> In q after -> paper_id q = paper_id p ->
       dict_get (paper_id p) b <> None /\
       exists q', In q' after /\ dict_get (paper_id p) b = Some (entry_of q')).
Proof.
  intros Hq. exists (papers_info_of records).
  split; [now apply save_bucket|].
  split; [apply papers_info_NoDup|].
  split; [intros i; apply papers_info_keys|].
  split; [intros i; apply papers_info_get|].
  intros before p after q -> Hin Hid.
  rewrite papers_info_get.
  assert (Hlast : exists q', last_with_id (paper_id p) (before ++ p :: after) = Some q'
                             /\ In q' after).
  { rewrite <- Hid. destruct (last_with_id_in after q Hin) as [q' Hq'].
    exists q'. split; [|now apply last_with_id_some in Hq'].
    clear - Hq'. induction before as [|x before IH]; simpl.
    - now rewrite Hq'.
    - now rewrite IH. }
  destruct Hlast as [q' [-> Hq']]. simpl. split; [discriminate | eauto].
Qed.

Lemma last_record_wins_witness :
  exists b,
    bucket_of (topic_dir "Graph Theory")
      (disk (save_papers_to_file 0 "Graph Theory"
               [sample_paper "2106.01234v1" "Draft" "First text.";
                sample_paper "1905.00001v2" "Other" "Other text.";
                sample_paper "2106.01234v1" "Final" "Second text."] empty_world)) = Some b /\
    NoDup (dict_keys b) /\
    (forall i, In i (dict_keys b) <->
               In i (map paper_id
                       [sample_paper "2106.01234v1" "Draft" "First text.";
                        sample_paper "1905.00001v2" "Other" "Other text.";
                        sample_paper "2106.01234v1" "Final" "Second text."])) /\
    (forall i, dict_get i b =
               option_map entry_of
                 (last_with_id i
                    [sample_paper "2106.01234v1" "Draft" "First text.";
                     sample_paper "1905.00001v2" "Other" "Other text.";
                     sample_paper "2106.01234v1" "Final" "Second text."])) /\
    (forall before p after q,
       [sample_paper "2106.01234v1" "Draft" "First text.";
        sample_paper "1905.00001v2" "Other" "Other text.";
        sample_paper "2106.01234v1" "Final" "Second text."]
         = (before ++ p :: after)%list -> In q after -> paper_id q = paper_id p ->
       dict_get (paper_id p) b <> None /\
       exists q', In q' after /\ dict_get (paper_id p) b = Some (entry_of q')).
Proof.
  apply (last_record_wins 0 "Graph Theory"
           [sample_paper "2106.01234v1" "Draft" "First text.";
            sample_paper "1905.00001v2" "Other" "Other text.";
            sample_paper "2106.01234v1" "Final" "Second text."] empty_world).
  reflexivity.
Defined.

Example repeated_identifier_bucket :
  papers_info_of
    [sample_paper "2106.01234v1" "Draft" "First text.";
     sample_paper "1905.00001v2" "Other" "Other text.";
     sample_paper "2106.01234v1" "Final" "Second text."]
  = [("2106.01234v1", entry_of (sample_paper "2106.01234v1" "Final" "Second text."));
     ("1905.00001v2", entry_of (sample_paper "1905.00001v2" "Other" "Other text."))].
Proof. reflexivity. Qed.

(** ** The context *)

(** C9: with no records the context is the empty string. *)
Theorem build_context_empty : build_context [] = "".
Proof. reflexivity. Qed.

(** The context is built from the first three records: the long summary
    of a fourth record does not occur in it, truncated or not. *)
Example fourth_record_is_not_in_context :
  In (sample_paper "2301.00004v1" "Fourth" (str_repeat "z" 201))
     [sample_paper "2301.00001v1" "First" "Short one.";
      sample_paper "2301.00002v1" "Second" "Short two.";
      sample_paper "2301.00003v1" "Third" "Short three.";
      sample_paper "2301.00004v1" "Fourth" (str_repeat "z" 201)] /\
  200 < String.length (summary (sample_paper "2301.00004v1" "Fourth" (str_repeat "z" 201))) /\
  ~ (exists pre post,
       build_context
         [sample_paper "2301.00001v1" "First" "Short one.";
          sample_paper "2301.00002v1" "Second" "Short two.";
          sample_paper "2301.00003v1" "Third" "Short three.";
          sample_paper "2301.00004v1" "Fourth" (str_repeat "z" 201)]
       = pre ++ (str_take 200
                   (summary (sample_paper "2301.00004v1" "Fourth" (str_repeat "z" 201)))
                 ++ "...") ++ post).
Proof.
  split; [simpl; auto|]. split; [vm_compute; lia|].
  intros H. apply str_contains_iff in H. vm_compute in H. discriminate.
Qed.

(** C7: for each record the builder takes (the first three of the result
    set) the context holds the line made of the first 200 characters of
    the summary followed by the ellipsis marker and a blank line.  Those
    200 characters are a proper prefix of a summary longer than 200, and
    are the whole summary, untruncated, when it has at most 200
    characters. *)
Theorem context_truncation papers n r :
  nth_error papers n = Some r ->
  n < 3 ->
  (exists pre post,
     build_context papers =
     pre ++ ("  Summary: " ++ str_take 200 (summary r) ++ "..." ++ newline ++ newline)
         ++ post) /\
  (200 < String.length (summary r) ->
     String.length (str_take 200 (summary r)) = 200 /\
     exists rest, rest <> "" /\ summary r = str_take 200 (summary r) ++ rest) /\
  (String.length (summary r) <= 200 -> str_take 200 (summary r) = summary r).
Proof.
  intros Hnth Hlt. split; [|split].
  - destruct (build_context_nth papers n r Hnth Hlt) as [pre [post H]].
    exists (pre ++ "- " ++ title r ++ " by " ++ authors_str r ++ newline), post.
    rewrite H. unfold context_line.
    now rewrite !str_app_assoc.
  - intros Hlong.
    assert (Hlen : String.length (str_take 200 (summary r)) = 200)
      by (rewrite str_take_length; lia).
    split; [exact Hlen|].
    destruct (str_take_prefix 200 (summary r)) as [rest Hrest].
    exists rest. split; [|exact Hrest].
    intros ->. rewrite str_app_nil_r in Hrest. rewrite <- Hrest in Hlen. lia.
  - apply str_take_all.
Qed.

Lemma context_truncation_witness :
  (exists pre post,
     build_context
       [sample_paper "2301.00001v1" "First" "Short one.";
        sample_paper "2301.00002v1" "Second" (str_repeat "y" 250)] =
     pre ++ ("  Summary: " ++
             str_take 200 (summary (sample_paper "2301.00002v1" "Second" (str_repeat "y" 250)))
             ++ "..." ++ newline ++ newline)
         ++ post) /\
  (200 < String.length (summary (sample_paper "2301.00002v1" "Second" (str_repeat "y" 250))) ->
     String.length
       (str_take 200 (summary (sample_paper "2301.00002v1" "Second" (str_repeat "y" 250))))
       = 200 /\
     exists rest, rest <> "" /\
       summary (sample_paper "2301.00002v1" "Second" (str_repeat "y" 250)) =
       str_take 200 (summary (sample_paper "2301.00002v1" "Second" (str_repeat "y" 250)))
       ++ rest) /\
  (String.length (summary (sample_paper "2301.00002v1" "Second" (str_repeat "y" 250))) <= 200 ->
     str_take 200 (summary (sample_paper "2301.00002v1" "Second" (str_repeat "y" 250))) =
     summary (sample_paper "2301.00002v1" "Second" (str_repeat "y" 250))).
Proof.
  apply (context_truncation
           [sample_paper "2301.00001v1" "First" "Short one.";
            sample_paper "2301.00002v1" "Second" (str_repeat "y" 250)]
           1 (sample_paper "2301.00002v1" "Second" (str_repeat "y" 250))).
  - reflexivity.
  - lia.
Defined.

Example short_summary_context :
  build_context [sample_paper "2301.00001v1" "First" "Short one."] =
  "Here are some recent papers I found:" ++ newline ++ newline ++
  "- First by A. Turing, E. Noether" ++ newline ++
  "  Summary: Short one...." ++ newline ++ newline.
Proof. reflexivity. Qed.

(** ** The conversation *)



Example sample_session_log :
  chat_history (snd (run sample_actions start)) =
  [ {| turn_role := user; content := "Again, please." |};
    {| turn_role := assistant;
       content := build_context [sample_paper "2106.01234v1" "On qubits" "About qubits."]
                  ++ newline ++ newline ++ "Again, please." |} ].
Proof. reflexivity. Qed.

Example failing_call_turn :
  chat_history
    (on_chat_input (Some unreachable_api) "Summarise the first paper."
       {| papers_data := []; chat_history := [] |}) =
  [ {| turn_role := user; content := "Summarise the first paper." |};
    {| turn_role := assistant; content := "❌ Error calling Claude: Connection error." |} ].
Proof. reflexivity. Qed.

(** * Further properties of the code *)

(** ** Topic keys *)

Lemma key_chars c :
  topic_dir (topic_dir (String c "")) = topic_dir (String c "") /\
  str_mem " " (topic_dir (String c "")) = false /\
  str_lower (topic_dir (String c "")) = topic_dir (String c "").
Proof. destruct c as [[] [] [] [] [] [] [] []]; repeat split. Qed.

Lemma topic_dir_app s t : topic_dir (s ++ t) = topic_dir s ++ topic_dir t.
Proof.
  induction s as [|c s IH]; [reflexivity|].
  change (topic_dir (String c s ++ t)) with
    (topic_dir (String c "") ++ topic_dir (s ++ t)).
  change (topic_dir (String c s)) with (topic_dir (String c "") ++ topic_dir s).
  now rewrite IH, str_app_assoc.
Qed.

Lemma str_mem_app c s t : str_mem c (s ++ t) = str_mem c s || str_mem c t.
Proof.
  induction s as [|d s IH]; simpl; [reflexivity|].
  now rewrite IH, orb_assoc.
Qed.

Lemma str_lower_app s t : str_lower (s ++ t) = str_lower s ++ str_lower t.
Proof.
  unfold str_lower. induction s as [|c s IH]; simpl; [reflexivity | now rewrite IH].
Qed.

(** X1: for a topic of code points below 256, the topic key is a fixed
    point of the normalization (searching for the key itself addresses
    the same bucket), and it has no space and no capital letter. *)
Theorem topic_dir_normal_form t :
  topic_dir (topic_dir t) = topic_dir t /\
  str_mem " " (topic_dir t) = false /\
  str_lower (topic_dir t) = topic_dir t.
Proof.
  induction t as [|c t (IH1 & IH2 & IH3)]; [repeat split|].
  change (String c t) with (String c "" ++ t).
  destruct (key_chars c) as (K1 & K2 & K3).
  rewrite !topic_dir_app, str_mem_app, str_lower_app.
  rewrite K1, K2, K3, IH1, IH2, IH3.
  repeat split.
Qed.

(** ** [save_papers_to_file] on the disk *)

Section SaveDisk.

Lemma lookup_replace_node_ne name n x d :
  name <> n -> lookup name (replace_node n x d) = lookup name d.
Proof.
  intros Hne. induction d as [|[m y] d IH]; simpl; [reflexivity|].
  destruct (String.eqb n m) eqn:E; simpl.
  - apply String.eqb_eq in E. subst m.
    apply String.eqb_neq in Hne. now rewrite Hne.
  - now rewrite IH.
Qed.

Lemma lookup_insert_at_ne name n x slot d :
  name <> n -> lookup name (insert_at slot (n, x) d) = lookup name d.
Proof.
  intros Hne. unfold insert_at.
  rewrite <- (firstn_skipn slot d) at 3. rewrite !lookup_app. simpl.
  apply String.eqb_neq in Hne. now rewrite Hne.
Qed.

Lemma replace_node_same name x d :
  lookup name d = Some x -> replace_node name x d = d.
Proof.
  induction d as [|[n y] d IH]; simpl; [reflexivity|].
  destruct (String.eqb name n) eqn:E.
  - now intros [= ->].
  - intros H. now rewrite IH.
Qed.

Lemma replace_node_app name x d1 d2 :
  lookup name d1 = None ->
  replace_node name x (d1 ++ d2)%list = (d1 ++ replace_node name x d2)%list.
Proof.
  induction d1 as [|[n y] d1 IH]; simpl; [reflexivity|].
  destruct (String.eqb name n); [discriminate|].
  intros H. now rewrite IH.
Qed.

Lemma replace_inserted name x y slot d :
  lookup name d = None ->
  replace_node name y (insert_at slot (name, x) d) = insert_at slot (name, y) d.
Proof.
  intros Hnone. unfold insert_at.
  rewrite replace_node_app by (now apply lookup_firstn_None).
  simpl. now rewrite String.eqb_refl.
Qed.

(** The disk after a save, as a function of the disk before. *)
Lemma save_disk slot topic records w :
  disk (save_papers_to_file slot topic records w) =
  if save_refused (topic_dir topic) (disk w) then disk w
  else
    match lookup (topic_dir topic) (disk w) with
    | Some _ =>
        replace_node (topic_dir topic) (Directory (Json (papers_info_of records))) (disk w)
    | None =>
        insert_at slot (topic_dir topic, Directory (Json (papers_info_of records))) (disk w)
    end.
Proof.
  unfold save_papers_to_file, bind, makedirs, dump_json, ret, raise, save_refused.
  destruct (str_mem nul (topic_dir topic)); [reflexivity|]. cbn [orb].
  destruct (NAME_MAX <? utf8_length (topic_dir topic))%nat; [reflexivity|]. cbn [orb].
  destruct (lookup (topic_dir topic) (disk w)) as [[|i]|] eqn:L.
  - reflexivity.
  - rewrite L. now destruct i.
  - rewrite (lookup_insert_at _ _ _ _ L). cbn [disk].
    now apply replace_inserted.
Qed.

Lemma save_shown slot topic records w :
  shown (save_papers_to_file slot topic records w) = shown w <->
  save_refused (topic_dir topic) (disk w) = false.
Proof.
  unfold save_papers_to_file, bind, makedirs, dump_json, ret, raise, save_refused.
  destruct (str_mem nul (topic_dir topic)); cbn [orb];
    [cbn [shown st_error]; split; [intros H; now apply app_one_neq in H | discriminate]|].
  destruct (NAME_MAX <? utf8_length (topic_dir topic))%nat; cbn [orb].
  - cbn [shown st_error]. split; [intros H; now apply app_one_neq in H | discriminate].
  - destruct (lookup (topic_dir topic) (disk w)) as [[|i]|] eqn:L.
    + cbn [shown st_error]. split; [intros H; now apply app_one_neq in H | discriminate].
    + rewrite L. destruct i; cbn [shown st_error]; split; auto; try discriminate.
      intros H; now apply app_one_neq in H.
    + rewrite (lookup_insert_at _ _ _ _ L). cbn [shown]. split; auto.
Qed.

End SaveDisk.

(** X2: under a key that is a single path component, a save that the
    disk refuses (a NUL in the key, a key of more than [NAME_MAX] bytes, a
    regular file under the key, or a directory where [papers_info.json]
    should be) reports one error and leaves the disk as it was. *)
Theorem refused_save_changes_nothing slot topic records w :
  path_component (topic_dir topic) = true ->
  save_refused (topic_dir topic) (disk w) = true ->
  disk (save_papers_to_file slot topic records w) = disk w /\
  (exists e,
     shown (save_papers_to_file slot topic records w) =
     app (shown w) ["Error saving papers: " ++ str_exn e]) /\
  ~ quiet w (save_papers_to_file slot topic records w).
Proof.
  intros _ Hrefused.
  assert (Hloud : ~ quiet w (save_papers_to_file slot topic records w)).
  { intros Hq. apply save_shown in Hq. congruence. }
  destruct (save_cases slot topic records w) as [[Hq _]|[Hdisk Hshown]];
    [contradiction | auto].
Qed.

Lemma refused_save_changes_nothing_witness :
  disk (save_papers_to_file 0 "x" [sample_paper "2106.01234v1" "On x" "About x."]
          {| disk := [("x", RegularFile)]; shown := [] |})
    = [("x", RegularFile)] /\
  (exists e,
     shown (save_papers_to_file 0 "x" [sample_paper "2106.01234v1" "On x" "About x."]
              {| disk := [("x", RegularFile)]; shown := [] |}) =
     app [] ["Error saving papers: " ++ str_exn e]) /\
  ~ quiet {| disk := [("x", RegularFile)]; shown := [] |}
      (save_papers_to_file 0 "x" [sample_paper "2106.01234v1" "On x" "About x."]
         {| disk := [("x", RegularFile)]; shown := [] |}).
Proof.
  apply (refused_save_changes_nothing 0 "x"
           [sample_paper "2106.01234v1" "On x" "About x."]
           {| disk := [("x", RegularFile)]; shown := [] |}).
  - reflexivity.
  - reflexivity.
Defined.

(** X3: a save under a key that is a single path component, failed or
    not, leaves every entry of [PAPER_DIR] under another name as it was;
    the buckets of the other topics are not touched. *)
Theorem save_leaves_other_topics slot topic records w name :
  path_component (topic_dir topic) = true ->
  name <> topic_dir topic ->
  lookup name (disk (save_papers_to_file slot topic records w)) = lookup name (disk w) /\
  bucket_of name (disk (save_papers_to_file slot topic records w)) = bucket_of name (disk w).
Proof.
  intros _ Hne.
  assert (H : lookup name (disk (save_papers_to_file slot topic records w))
              = lookup name (disk w)).
  { rewrite save_disk.
    destruct (save_refused (topic_dir topic) (disk w)); [reflexivity|].
    destruct (lookup (topic_dir topic) (disk w)).
    - now apply lookup_replace_node_ne.
    - now apply lookup_insert_at_ne. }
  split; [exact H|]. unfold bucket_of. now rewrite H.
Qed.

Lemma save_leaves_other_topics_witness :
  lookup "graphs"
    (disk (save_papers_to_file 0 "Quantum Computing"
             [sample_paper "2106.01234v1" "A" "Text a."]
             {| disk := [("graphs", Directory (Json [("0704.0001v1",
                           entry_of (sample_paper "0704.0001v1" "Old" "Old text."))]))];
                shown := [] |}))
  = lookup "graphs"
      [("graphs", Directory (Json [("0704.0001v1",
          entry_of (sample_paper "0704.0001v1" "Old" "Old text."))]))] /\
  bucket_of "graphs"
    (disk (save_papers_to_file 0 "Quantum Computing"
             [sample_paper "2106.01234v1" "A" "Text a."]
             {| disk := [("graphs", Directory (Json [("0704.0001v1",
                           entry_of (sample_paper "0704.0001v1" "Old" "Old text."))]))];
                shown := [] |}))
  = bucket_of "graphs"
      [("graphs", Directory (Json [("0704.0001v1",
          entry_of (sample_paper "0704.0001v1" "Old" "Old text."))]))].
Proof.
  apply (save_leaves_other_topics 0 "Quantum Computing"
           [sample_paper "2106.01234v1" "A" "Text a."]
           {| disk := [("graphs", Directory (Json [("0704.0001v1",
                         entry_of (sample_paper "0704.0001v1" "Old" "Old text."))]))];
              shown := [] |} "graphs").
  - reflexivity.
  - discriminate.
Defined.

Lemma save_refused_after slot topic records w :
  save_refused (topic_dir topic) (disk (save_papers_to_file slot topic records w)) =
  save_refused (topic_dir topic) (disk w).
Proof.
  destruct (save_refused (topic_dir topic) (disk w)) eqn:R.
  - now rewrite save_disk, R.
  - assert (Hq : quiet w (save_papers_to_file slot topic records w))
      by (now apply save_shown).
    destruct (save_quiet slot topic records w Hq) as [Hlook _].
    unfold save_refused in *. rewrite Hlook.
    apply orb_false_iff in R. destruct R as [-> _]. reflexivity.
Qed.

(** X4: saving the same records again under the same topic changes
    nothing on the disk, wherever the file system would place a new
    directory and whether the save fails or not. *)
Theorem save_twice_same_disk slot1 slot2 topic records w :
  disk (save_papers_to_file slot2 topic records
          (save_papers_to_file slot1 topic records w))
  = disk (save_papers_to_file slot1 topic records w).
Proof.
  rewrite (save_disk slot2). rewrite save_refused_after.
  destruct (save_refused (topic_dir topic) (disk w)) eqn:R; [reflexivity|].
  assert (Hq : quiet w (save_papers_to_file slot1 topic records w))
    by (now apply save_shown).
  destruct (save_quiet slot1 topic records w Hq) as [Hlook _].
  rewrite Hlook. now apply replace_node_same.
Qed.

Lemma saved_topics_replace name b d i :
  lookup name d = Some (Directory i) ->
  saved_topics (replace_node name (Directory b) d) = saved_topics d.
Proof.
  unfold saved_topics. induction d as [|[n x] d IH]; simpl; [reflexivity|].
  destruct (String.eqb name n) eqn:E.
  - intros [= ->]. reflexivity.
  - intros H. simpl. destruct (is_dir x); simpl; now rewrite IH.
Qed.

Lemma saved_topics_app (d1 d2 : fs) :
  saved_topics (d1 ++ d2)%list = (saved_topics d1 ++ saved_topics d2)%list.
Proof. unfold saved_topics. now rewrite filter_app, map_app. Qed.

Lemma saved_topics_insert slot name i d n :
  In n (saved_topics (insert_at slot (name, Directory i) d)) <->
  n = name \/ In n (saved_topics d).
Proof.
  unfold insert_at. rewrite <- (firstn_skipn slot d) at 3.
  rewrite !saved_topics_app, !in_app_iff.
  change (saved_topics ((name, Directory i) :: skipn slot d))
    with (name :: saved_topics (skipn slot d)).
  simpl. intuition.
Qed.

Lemma lookup_saved_topics name i d :
  lookup name d = Some (Directory i) -> In name (saved_topics d).
Proof.
  unfold saved_topics. induction d as [|[n x] d IH]; simpl; [discriminate|].
  destruct (String.eqb name n) eqn:E.
  - apply String.eqb_eq in E. subst n. intros [= ->]. simpl. now left.
  - intros H. destruct (is_dir x); simpl; auto.
Qed.

(** X5: for a save under a key that is a single path component, the
    topics the sidebar lists afterwards are those it listed before,
    together with the key when the save reported no error; such a save
    never removes a topic from the list and a failed one adds none. *)
Theorem saved_topics_after_save slot topic records w n :
  path_component (topic_dir topic) = true ->
  (In n (saved_topics (disk (save_papers_to_file slot topic records w))) <->
   In n (saved_topics (disk w)) \/
   (n = topic_dir topic /\ quiet w (save_papers_to_file slot topic records w))).
Proof.
  intros _. unfold quiet. rewrite save_shown, save_disk.
  destruct (save_refused (topic_dir topic) (disk w)) eqn:R.
  - intuition discriminate.
  - destruct (lookup (topic_dir topic) (disk w)) as [[|i]|] eqn:L.
    + unfold save_refused in R. rewrite L in R.
      rewrite orb_true_r in R. discriminate.
    + rewrite (saved_topics_replace _ _ _ i L).
      split; [auto | intros [H|[-> _]]; [exact H | eapply lookup_saved_topics; eauto]].
    + rewrite saved_topics_insert. intuition.
Qed.

Lemma saved_topics_after_save_witness :
  In "quantum_computing"
     (saved_topics
        (disk (save_papers_to_file 0 "Quantum Computing"
                 [sample_paper "2106.01234v1" "A" "Text a."]
                 {| disk := [("notes.txt", RegularFile); ("graphs", Directory Missing)];
                    shown := [] |}))) <->
  In "quantum_computing"
     (saved_topics [("notes.txt", RegularFile); ("graphs", Directory Missing)]) \/
  ("quantum_computing" = topic_dir "Quantum Computing" /\
   quiet {| disk := [("notes.txt", RegularFile); ("graphs", Directory Missing)];
            shown := [] |}
         (save_papers_to_file 0 "Quantum Computing"
            [sample_paper "2106.01234v1" "A" "Text a."]
            {| disk := [("notes.txt", RegularFile); ("graphs", Directory Missing)];
               shown := [] |})).
Proof.
  apply (saved_topics_after_save 0 "Quantum Computing"
           [sample_paper "2106.01234v1" "A" "Text a."]
           {| disk := [("notes.txt", RegularFile); ("graphs", Directory Missing)];
              shown := [] |} "quantum_computing").
  reflexivity.
Defined.

(** ** The bucket of a result with distinct identifiers *)

Lemma dict_set_fresh k v d :
  ~ In k (dict_keys d) -> dict_set k v d = (d ++ [(k, v)])%list.
Proof.
  unfold dict_keys. induction d as [|[k' v'] d IH]; simpl; intros Hfresh; [reflexivity|].
  destruct (String.eqb k k') eqn:E.
  - apply String.eqb_eq in E. subst k'. exfalso. auto.
  - rewrite IH; auto.
Qed.

Lemma fill_distinct records : forall acc,
  NoDup (map paper_id records) ->
  (forall i, In i (map paper_id records) -> ~ In i (dict_keys acc)) ->
  fold_left (fun papers_info p => dict_set (paper_id p) (entry_of p) papers_info)
            records acc
  = (acc ++ map persisted records)%list.
Proof.
  induction records as [|p rest IH]; intros acc Hnd Hfresh; simpl.
  - now rewrite app_nil_r.
  - inversion Hnd as [|? ? Hnotin Hrest]; subst.
    rewrite dict_set_fresh by (apply Hfresh; now left).
    rewrite IH; auto.
    + now rewrite <- app_assoc.
    + intros i Hi. unfold dict_keys. rewrite map_app, in_app_iff. simpl.
      intros [Hacc|[<-|[]]].
      * apply (Hfresh i); auto. now right.
      * contradiction.
Qed.

(** X6: when the identifiers of the records are distinct, the bucket that
    a save writes lists one entry per record, in the order of the
    records. *)
Theorem papers_info_of_distinct records :
  NoDup (map paper_id records) ->
  papers_info_of records = map persisted records /\
  length (papers_info_of records) = length records.
Proof.
  intros Hnd.
  assert (H : papers_info_of records = map persisted records)
    by (unfold papers_info_of; rewrite fill_distinct; auto).
  split; [exact H|]. now rewrite H, length_map.
Qed.

Lemma papers_info_of_distinct_witness :
  papers_info_of [sample_paper "2106.01234v1" "A" "Text a.";
                  sample_paper "1905.00001v2" "B" "Text b."]
  = map persisted [sample_paper "2106.01234v1" "A" "Text a.";
                   sample_paper "1905.00001v2" "B" "Text b."] /\
  length (papers_info_of [sample_paper "2106.01234v1" "A" "Text a.";
                          sample_paper "1905.00001v2" "B" "Text b."])
  = length [sample_paper "2106.01234v1" "A" "Text a.";
            sample_paper "1905.00001v2" "B" "Text b."].
Proof.
  apply (papers_info_of_distinct [sample_paper "2106.01234v1" "A" "Text a.";
                                  sample_paper "1905.00001v2" "B" "Text b."]).
  repeat constructor; simpl; intuition discriminate.
Defined.

(** ** Look-ups on a readable disk *)

Section Readable.

Variable i : string.

Lemma readable_app (d1 d2 : fs) :
  readable (d1 ++ d2)%list = readable d1 && readable d2.
Proof. unfold readable. apply forallb_app. Qed.

Lemma all_pass_misses d name b :
  all_pass i d = true -> In (name, Directory (Json b)) d -> dict_get i b = None.
Proof.
  unfold all_pass. rewrite forallb_forall. intros Hall Hin.
  specialize (Hall _ Hin). simpl in Hall.
  now destruct (dict_get i b).
Qed.

Lemma all_pass_not_held d : all_pass i d = true -> ~ held i d.
Proof.
  intros Hall (name & b & v & Hin & Hget).
  rewrite (all_pass_misses d name b Hall Hin) in Hget. discriminate.
Qed.

(** On a readable disk the loop ends without an exception, with an entry
    of some bucket or with nothing when no bucket has the identifier. *)
Lemma scan_readable d :
  readable d = true ->
  (exists v, scan i d = Ok (Some v) /\
             exists name b, In (name, Directory (Json b)) d /\ dict_get i b = Some v)
  \/ (scan i d = Ok None /\ ~ held i d).
Proof.
  intros Hr. pose proof (scan_spec i d) as H.
  destruct (scan i d) as [[v|]|e]; simpl in H.
  - left. exists v. split; [reflexivity|].
    destruct H as (before & name & b & after & -> & _ & Hget).
    exists name, b. split; [|exact Hget]. apply in_or_app. right. now left.
  - right. split; [reflexivity | now apply all_pass_not_held].
  - destruct H as (before & name & why & after & -> & _ & _).
    rewrite readable_app in Hr. apply andb_prop in Hr. destruct Hr as [_ Hr].
    simpl in Hr. discriminate.
Qed.

End Readable.

(** X7: when no [papers_info.json] of the disk is unparseable, a look-up
    reports nothing and changes nothing; an entry it returns is the entry
    of the identifier in some bucket of the disk, and it returns [None]
    exactly when no bucket has the identifier. *)
Theorem get_paper_info_readable i w :
  readable (disk w) = true ->
  snd (get_paper_info i w) = w /\
  (forall v, fst (get_paper_info i w) = Some v ->
     exists name b, In (name, Directory (Json b)) (disk w) /\ dict_get i b = Some v) /\
  (fst (get_paper_info i w) = None <-> ~ held i (disk w)).
Proof.
  intros Hr. unfold get_paper_info.
  destruct (scan_readable i (disk w) Hr) as [(v & -> & name & b & Hin & Hget)|[-> Hnot]];
    cbn [fst snd].
  - split; [reflexivity|]. split.
    + intros v' [= <-]. eauto.
    + split; [discriminate|]. intros Hnot. exfalso. apply Hnot. exists name, b, v. auto.
  - split; [reflexivity|]. split; [discriminate|]. tauto.
Qed.

Lemma get_paper_info_readable_witness :
  snd (get_paper_info "0704.0001v1"
         {| disk := [("notes.txt", RegularFile);
                     ("graphs", Directory (Json [("0704.0001v1",
                        entry_of (sample_paper "0704.0001v1" "Old" "Old text."))]))];
            shown := [] |})
  = {| disk := [("notes.txt", RegularFile);
                ("graphs", Directory (Json [("0704.0001v1",
                   entry_of (sample_paper "0704.0001v1" "Old" "Old text."))]))];
       shown := [] |} /\
  (forall v,
     fst (get_paper_info "0704.0001v1"
            {| disk := [("notes.txt", RegularFile);
                        ("graphs", Directory (Json [("0704.0001v1",
                           entry_of (sample_paper "0704.0001v1" "Old" "Old text."))]))];
               shown := [] |}) = Some v ->
     exists name b,
       In (name, Directory (Json b))
          [("notes.txt", RegularFile);
           ("graphs", Directory (Json [("0704.0001v1",
              entry_of (sample_paper "0704.0001v1" "Old" "Old text."))]))] /\
       dict_get "0704.0001v1" b = Some v) /\
  (fst (get_paper_info "0704.0001v1"
          {| disk := [("notes.txt", RegularFile);
                      ("graphs", Directory (Json [("0704.0001v1",
                         entry_of (sample_paper "0704.0001v1" "Old" "Old text."))]))];
             shown := [] |}) = None <->
   ~ held "0704.0001v1"
       [("notes.txt", RegularFile);
        ("graphs", Directory (Json [("0704.0001v1",
           entry_of (sample_paper "0704.0001v1" "Old" "Old text."))]))]).
Proof.
  apply (get_paper_info_readable "0704.0001v1"
           {| disk := [("notes.txt", RegularFile);
                       ("graphs", Directory (Json [("0704.0001v1",
                          entry_of (sample_paper "0704.0001v1" "Old" "Old text."))]))];
              shown := [] |}).
  reflexivity.
Defined.

Lemma readable_In d :
  readable d = true <-> forall n why, ~ In (n, Directory (Malformed why)) d.
Proof.
  unfold readable. rewrite forallb_forall. split.
  - intros H n why Hin. specialize (H _ Hin). discriminate.
  - intros H [n x] Hin. simpl. destruct x as [|[| |why|]]; auto.
    exfalso. now apply (H n why).
Qed.

(** X8: the order in which the file system lists the directories does
    not change the answer of a look-up on a readable disk, as long as the
    buckets that have the identifier agree on its entry. *)
Theorem lookup_order_independent i w1 w2 :
  Permutation (disk w1) (disk w2) ->
  readable (disk w1) = true ->
  (forall n1 b1 v1 n2 b2 v2,
     In (n1, Directory (Json b1)) (disk w1) -> dict_get i b1 = Some v1 ->
     In (n2, Directory (Json b2)) (disk w1) -> dict_get i b2 = Some v2 ->
     v1 = v2) ->
  fst (get_paper_info i w1) = fst (get_paper_info i w2).
Proof.
  intros Hperm Hr1 Hagree.
  assert (Hr2 : readable (disk w2) = true).
  { apply readable_In. intros n why Hin.
    apply (proj1 (readable_In _) Hr1 n why).
    now apply (Permutation_in _ (Permutation_sym Hperm)). }
  unfold get_paper_info.
  destruct (scan_readable i _ Hr1) as [(v1 & -> & n1 & b1 & Hin1 & Hg1)|[-> Hnot1]];
    destruct (scan_readable i _ Hr2) as [(v2 & -> & n2 & b2 & Hin2 & Hg2)|[-> Hnot2]];
    cbn [fst]; try reflexivity.
  - f_equal. apply (Hagree n1 b1 v1 n2 b2 v2); auto.
    now apply (Permutation_in _ (Permutation_sym Hperm)).
  - exfalso. apply Hnot2. exists n1, b1, v1. split; [|exact Hg1].
    now apply (Permutation_in _ Hperm).
  - exfalso. apply Hnot1. exists n2, b2, v2. split; [|exact Hg2].
    now apply (Permutation_in _ (Permutation_sym Hperm)).
Qed.

Lemma lookup_order_independent_witness :
  fst (get_paper_info "2106.01234v1"
         {| disk := [("alpha", Directory (Json [("2106.01234v1",
                        entry_of (sample_paper "2106.01234v1" "Same" "Same text."))]));
                     ("beta", Directory (Json [("2106.01234v1",
                        entry_of (sample_paper "2106.01234v1" "Same" "Same text."))]))];
            shown := [] |})
  = fst (get_paper_info "2106.01234v1"
           {| disk := [("beta", Directory (Json [("2106.01234v1",
                          entry_of (sample_paper "2106.01234v1" "Same" "Same text."))]));
                       ("alpha", Directory (Json [("2106.01234v1",
                          entry_of (sample_paper "2106.01234v1" "Same" "Same text."))]))];
              shown := [] |}).
Proof.
  apply (lookup_order_independent "2106.01234v1"
           {| disk := [("alpha", Directory (Json [("2106.01234v1",
                          entry_of (sample_paper "2106.01234v1" "Same" "Same text."))]));
                       ("beta", Directory (Json [("2106.01234v1",
                          entry_of (sample_paper "2106.01234v1" "Same" "Same text."))]))];
              shown := [] |}
           {| disk := [("beta", Directory (Json [("2106.01234v1",
                          entry_of (sample_paper "2106.01234v1" "Same" "Same text."))]));
                       ("alpha", Directory (Json [("2106.01234v1",
                          entry_of (sample_paper "2106.01234v1" "Same" "Same text."))]))];
              shown := [] |}).
  - apply perm_swap.
  - reflexivity.
  - intros n1 b1 v1 n2 b2 v2 [H1|[H1|[]]] G1 [H2|[H2|[]]] G2;
      injection H1 as <- <-; injection H2 as <- <-;
      simpl in G1, G2; congruence.
Defined.

(** ** The disk the program keeps *)

Section ProgramDisk.

Lemma topic_dir_fixed t : topic_dir (topic_dir t) = topic_dir t.
Proof.
  induction t as [|c t IH]; [reflexivity|].
  change (String c t) with (String c "" ++ t).
  rewrite !topic_dir_app, IH. now rewrite (proj1 (key_chars c)).
Qed.

Lemma lookup_None_names name d : lookup name d = None -> ~ In name (map fst d).
Proof.
  induction d as [|[n x] d IH]; simpl; [tauto|].
  destruct (String.eqb name n) eqn:E; [discriminate|].
  apply String.eqb_neq in E. intros H [Heq|Hin]; [congruence | now apply IH].
Qed.

Lemma names_replace_node name x d : map fst (replace_node name x d) = map fst d.
Proof.
  induction d as [|[n y] d IH]; simpl; [reflexivity|].
  destruct (String.eqb name n); simpl; [reflexivity | now rewrite IH].
Qed.

Lemma In_replace_node_any name y d n x :
  In (n, x) (replace_node name y d) -> (n = name /\ x = y) \/ In (n, x) d.
Proof.
  induction d as [|[m z] d IH]; simpl; [tauto|].
  destruct (String.eqb name m) eqn:E; simpl.
  - apply String.eqb_eq in E. subst m. intros [[= <- <-]|Hin]; auto.
  - intros [Heq|Hin]; auto. destruct (IH Hin); auto.
Qed.

Lemma names_insert_at slot (e : string * node) d :
  Permutation (fst e :: map fst d) (map fst (insert_at slot e d)).
Proof.
  unfold insert_at. rewrite map_app. simpl.
  rewrite <- (firstn_skipn slot d) at 1. rewrite map_app.
  apply Permutation_middle.
Qed.

Lemma save_program_disk slot topic records w :
  program_disk (disk w) ->
  program_disk (disk (save_papers_to_file slot topic records w)).
Proof.
  intros [Hnd Hall]. rewrite save_disk.
  destruct (save_refused (topic_dir topic) (disk w)); [now split|].
  destruct (lookup (topic_dir topic) (disk w)) as [found|] eqn:L; split.
  - now rewrite names_replace_node.
  - intros n x Hin. apply In_replace_node_any in Hin.
    destruct Hin as [[-> ->]|Hin]; [|now apply Hall].
    split; [apply topic_dir_fixed|].
    eexists. split; [reflexivity | apply papers_info_NoDup].
  - apply (Permutation_NoDup (names_insert_at slot _ (disk w))).
    constructor; [now apply lookup_None_names | exact Hnd].
  - intros n x Hin. apply In_insert_at in Hin.
    destruct Hin as [[= -> ->]|Hin]; [|now apply Hall].
    split; [apply topic_dir_fixed|].
    eexists. split; [reflexivity | apply papers_info_NoDup].
Qed.

Lemma search_papers_disk client slot topic n w :
  disk (snd (search_papers client slot topic n w)) = disk w \/
  exists records,
    snd (search_papers client slot topic n w) = save_papers_to_file slot topic records w.
Proof.
  unfold search_papers. destruct (client topic n) as [items [e|]]; cbn [snd]; eauto.
Qed.

Lemma step_program_disk ws a :
  program_disk (disk (fst ws)) -> program_disk (disk (fst (step ws a))).
Proof.
  intros H. destruct ws as [w s].
  destruct a as [client slot topic n|anthropic prompt|]; cbn [step fst]; try exact H.
  unfold on_search. destruct (String.eqb topic ""); [exact H|].
  pose proof (search_papers_disk client slot topic n w) as Hd.
  destruct (search_papers client slot topic n w) as [papers w'] eqn:E. cbn [snd] in Hd.
  assert (Hw' : program_disk (disk w')).
  { destruct Hd as [->|[records ->]]; [exact H | now apply save_program_disk]. }
  now destruct papers.
Qed.

Lemma run_program_disk actions : forall ws,
  program_disk (disk (fst ws)) -> program_disk (disk (fst (run actions ws))).
Proof.
  unfold run. induction actions as [|a actions IH]; intros ws H; simpl; [exact H|].
  apply IH. now apply step_program_disk.
Qed.

Lemma program_disk_readable d : program_disk d -> readable d = true.
Proof.
  intros [_ Hall]. apply readable_In. intros n why Hin.
  destruct (Hall _ _ Hin) as [_ (b & Hb & _)]. discriminate.
Qed.

End ProgramDisk.

(** X9: whatever the user does from an empty [PAPER_DIR], with searches
    whose topic keys are single path components, the disk holds only what
    the program wrote: every name occurs once and is a topic key, and
    every entry is a bucket without a repeated identifier; hence no
    look-up reports an error there or changes anything. *)
Theorem program_keeps_disk actions i :
  plain_searches actions = true ->
  program_disk (disk (fst (run actions start))) /\
  readable (disk (fst (run actions start))) = true /\
  snd (get_paper_info i (fst (run actions start))) = fst (run actions start).
Proof.
  intros _.
  assert (H : program_disk (disk (fst (run actions start)))).
  { apply run_program_disk. split; [constructor | intros n x []]. }
  split; [exact H|].
  pose proof (program_disk_readable _ H) as Hr. split; [exact Hr|].
  unfold get_paper_info.
  now destruct (scan_readable i _ Hr) as [(v & -> & _)|[-> _]].
Qed.

Lemma program_keeps_disk_witness :
  program_disk (disk (fst (run sample_actions start))) /\
  readable (disk (fst (run sample_actions start))) = true /\
  snd (get_paper_info "2106.01234v1" (fst (run sample_actions start)))
    = fst (run sample_actions start).
Proof.
  apply (program_keeps_disk sample_actions "2106.01234v1").
  reflexivity.
Defined.

(** X10: after the first search on an empty [PAPER_DIR], under a topic
    whose key is a single path component and with a save that reported no
    error, each result with a distinct short identifier is found by
    [get_paper_info] with the title, authors, summary, URL and date the
    collaborator gave. *)
Theorem first_search_then_lookup client slot topic n items r :
  client topic n = (items, None) ->
  path_component (topic_dir topic) = true ->
  quiet empty_world (snd (search_papers client slot topic n empty_world)) ->
  NoDup (map get_short_id items) ->
  In r items ->
  get_paper_info (get_short_id r) (snd (search_papers client slot topic n empty_world)) =
  (Some {| e_title := r_title r;
           e_authors := r_authors r;
           e_summary := r_summary r;
           e_pdf_url := r_pdf_url r;
           e_published := r_published r |},
   snd (search_papers client slot topic n empty_world)).
Proof.
  unfold search_papers. intros Hfeed _. rewrite Hfeed. cbn [snd].
  set (records := map paper_info_of items).
  intros Hq Hnd Hin.
  destruct (save_quiet slot topic records empty_world Hq) as [Hlook Hrest].
  unfold get_paper_info.
  rewrite (scan_found (get_short_id r) (topic_dir topic) (papers_info_of records)
             (entry_of (paper_info_of r))); auto.
  - rewrite papers_info_get.
    change (get_short_id r) with (paper_id (paper_info_of r)).
    rewrite last_with_id_unique; [reflexivity| |].
    + subst records. rewrite map_map. exact Hnd.
    + subst records. now apply in_map.
  - intros m x Hm Hne. destruct (Hrest m x Hm Hne).
Qed.

Lemma first_search_then_lookup_witness :
  get_paper_info (get_short_id (sample_result "2106.01234v1" "On qubits" "About qubits."))
    (snd (search_papers
            (yields [sample_result "2106.01234v1" "On qubits" "About qubits.";
                     sample_result "1905.00001v2" "On gates" "About gates."])
            0 "Quantum Computing" 5 empty_world)) =
  (Some {| e_title := r_title (sample_result "2106.01234v1" "On qubits" "About qubits.");
           e_authors := r_authors (sample_result "2106.01234v1" "On qubits" "About qubits.");
           e_summary := r_summary (sample_result "2106.01234v1" "On qubits" "About qubits.");
           e_pdf_url := r_pdf_url (sample_result "2106.01234v1" "On qubits" "About qubits.");
           e_published :=
             r_published (sample_result "2106.01234v1" "On qubits" "About qubits.") |},
   snd (search_papers
          (yields [sample_result "2106.01234v1" "On qubits" "About qubits.";
                   sample_result "1905.00001v2" "On gates" "About gates."])
          0 "Quantum Computing" 5 empty_world)).
Proof.
  apply (first_search_then_lookup
           (yields [sample_result "2106.01234v1" "On qubits" "About qubits.";
                    sample_result "1905.00001v2" "On gates" "About gates."])
           0 "Quantum Computing" 5
           [sample_result "2106.01234v1" "On qubits" "About qubits.";
            sample_result "1905.00001v2" "On gates" "About gates."]).
  - reflexivity.
  - reflexivity.
  - reflexivity.
  - repeat constructor; simpl; intuition discriminate.
  - simpl. auto.
Defined.

(** ** The context and the message sent *)

Lemma build_context_nonempty p ps : String.eqb (build_context (p :: ps)) "" = false.
Proof. rewrite build_context_cons. reflexivity. Qed.

(** X11: the context depends on the first three records only, and with
    at least one record it opens with the fixed header line and a blank
    line. *)
Theorem build_context_first_three papers :
  build_context papers = build_context (firstn 3 papers) /\
  (papers = [] \/
   exists rest,
     build_context papers =
     "Here are some recent papers I found:" ++ newline ++ newline ++ rest).
Proof.
  destruct papers as [|p ps]; [split; [reflexivity | now left]|].
  split.
  - change (firstn 3 (p :: ps)) with (p :: firstn 2 ps).
    unfold build_context.
    change (p :: firstn 2 ps) with (firstn 3 (p :: ps)).
    now rewrite firstn_firstn.
  - right. rewrite build_context_cons.
    eexists. rewrite !str_app_assoc. reflexivity.
Qed.

(** X12: with a client configured, the message sent is the prompt alone
    when the result set is empty and otherwise the context, a blank line
    and the prompt; the assistant's text is the text of the response, or
    the error message when the call raises. *)
Theorem chat_message_sent create prompt papers :
  chat_with_claude (Some create) prompt (build_context papers) =
  match create (match papers with
                | [] => prompt
                | _ => build_context papers ++ newline ++ newline ++ prompt
                end) with
  | Ok text => text
  | Raise e => "❌ Error calling Claude: " ++ str_exn e
  end.
Proof.
  unfold chat_with_claude. destruct papers as [|p ps]; [reflexivity|].
  now rewrite build_context_nonempty.
Qed.

(** ** The log and the prompts *)

Section Prompts.

Lemma user_turns_app l1 l2 : user_turns (l1 ++ l2) = (user_turns l1 ++ user_turns l2)%list.
Proof. unfold user_turns. now rewrite filter_app, map_app. Qed.

Lemma step_user_turns ws a :
  user_turns (chat_history (snd (step ws a))) =
  submitted (user_turns (chat_history (snd ws))) [a].
Proof.
  destruct a as [client slot topic n|anthropic prompt|]; cbn [step snd submitted fold_left].
  - now rewrite on_search_log.
  - destruct (String.eqb prompt "") eqn:E.
    + unfold on_chat_input. now rewrite E.
    + apply String.eqb_neq in E. rewrite (on_chat_input_log _ _ _ E).
      now rewrite user_turns_app.
  - reflexivity.
Qed.

Lemma run_user_turns actions : forall ws,
  user_turns (chat_history (snd (run actions ws))) =
  submitted (user_turns (chat_history (snd ws))) actions.
Proof.
  unfold run. induction actions as [|a actions IH]; intros ws; [reflexivity|].
  cbn [fold_left]. rewrite IH, step_user_turns. reflexivity.
Qed.

Lemma alternates_length : forall l,
  (alternates l = true -> length l = 2 * length (user_turns l)) /\
  (forall x, alternates (x :: l) = true ->
             length (x :: l) = 2 * length (user_turns (x :: l))).
Proof.
  induction l as [|y l [IH1 IH2]]; split.
  - reflexivity.
  - intros x H. discriminate.
  - apply IH2.
  - intros x H. cbn [alternates] in H. unfold user_turns. cbn [filter length].
    destruct (turn_role x); [|discriminate].
    destruct (turn_role y); [discriminate|].
    cbn [map length]. specialize (IH1 H). unfold user_turns in IH1. lia.
Qed.

End Prompts.

(** X13: the user turns of the log are, in order, the non-empty prompts
    submitted since the last clear, and the log is twice as long: every
    prompt is followed by exactly one assistant turn. *)
Theorem log_holds_prompts actions :
  user_turns (chat_history (snd (run actions start))) = submitted [] actions /\
  length (chat_history (snd (run actions start))) = 2 * length (submitted [] actions).
Proof.
  pose proof (run_user_turns actions start) as H. cbn [start snd chat_history] in H.
  change (user_turns []) with (@nil string) in H.
  split; [exact H|].
  rewrite <- H. apply (proj1 (alternates_length _)).
  now apply run_alternates.
Qed.

(** ** A search without hits *)

(** X14: a search that succeeds with no hit, under a key that is a single
    path component and with a save that reports no error, empties the
    bucket of the topic on the disk and shows the warning that no papers
    were found, while the session keeps the result set of the earlier
    search, and with it the context of the next chat message, and the
    log. *)
Theorem search_without_hits client slot search_topic n w s :
  search_topic <> "" ->
  client search_topic n = ([], None) ->
  path_component (topic_dir search_topic) = true ->
  quiet w (save_papers_to_file slot search_topic [] w) ->
  bucket_of (topic_dir search_topic)
    (disk (fst (on_search client slot search_topic n (w, s)))) = Some [] /\
  snd (on_search client slot search_topic n (w, s)) = s /\
  shown (fst (on_search client slot search_topic n (w, s))) =
    app (shown w) ["No papers found. Try a different search term."].
Proof.
  intros Hne Hfeed _ Hq. unfold on_search.
  apply String.eqb_neq in Hne. rewrite Hne.
  unfold search_papers. rewrite Hfeed. cbn [map fst snd st_warning disk shown].
  split; [exact (save_bucket slot search_topic [] w Hq)|].
  split; [reflexivity | now rewrite Hq].
Qed.

Lemma search_without_hits_witness :
  bucket_of (topic_dir "Quantum Computing")
    (disk (fst (on_search (yields []) 0 "Quantum Computing" 5
                  (fst (run sample_actions start), snd (run sample_actions start)))))
    = Some [] /\
  snd (on_search (yields []) 0 "Quantum Computing" 5
         (fst (run sample_actions start), snd (run sample_actions start)))
    = snd (run sample_actions start) /\
  shown (fst (on_search (yields []) 0 "Quantum Computing" 5
                (fst (run sample_actions start), snd (run sample_actions start))))
    = app (shown (fst (run sample_actions start)))
          ["No papers found. Try a different search term."].
Proof.
  apply (search_without_hits (yields []) 0 "Quantum Computing" 5
           (fst (run sample_actions start)) (snd (run sample_actions start))).
  - discriminate.
  - reflexivity.
  - reflexivity.
  - reflexivity.
Defined.

Example stale_result_set :
  bucket_of "quantum_computing" (disk (fst (run sample_actions start)))
    = Some [("2106.01234v1", entry_of (sample_paper "2106.01234v1" "On qubits" "About qubits."))] /\
  papers_data (snd (on_search (yields []) 0 "Quantum Computing" 5
                      (fst (run sample_actions start), snd (run sample_actions start))))
    = [sample_paper "2106.01234v1" "On qubits" "About qubits."].
Proof. split; reflexivity. Qed.

(** ** The year of a date *)

Lemma split_head_app sep y rest :
  str_mem sep y = false -> split_head sep (y ++ String sep rest) = y.
Proof.
  induction y as [|c y IH]; simpl.
  - now rewrite Ascii.eqb_refl.
  - rewrite (Ascii.eqb_sym c sep). destruct (Ascii.eqb sep c); [discriminate|].
    intros H. now rewrite IH.
Qed.

Lemma split_head_clean sep s : str_mem sep (split_head sep s) = false.
Proof.
  induction s as [|c s IH]; simpl; [reflexivity|].
  destruct (Ascii.eqb c sep) eqn:E; simpl; [reflexivity|].
  now rewrite Ascii.eqb_sym, E.
Qed.

Lemma split_head_prefix sep s :
  s = split_head sep s \/ exists rest, s = split_head sep s ++ String sep rest.
Proof.
  induction s as [|c s IH]; simpl; [now left|].
  destruct (Ascii.eqb c sep) eqn:E.
  - apply Ascii.eqb_eq in E. subst c. right. exists s. reflexivity.
  - destruct IH as [IH|[rest IH]].
    + left. now rewrite <- IH.
    + right. exists rest. simpl. now rewrite <- IH.
Qed.

(** X15: the year shown for a date is the text before its first hyphen
    (all of it when there is none): it has no hyphen, the date is the
    year followed by nothing or by a hyphen and the rest, and a date that
    is a hyphen-free year, a hyphen and anything gives back that year. *)
Theorem year_of_spec date :
  str_mem "-" (year_of date) = false /\
  (date = year_of date \/
   exists rest, date = year_of date ++ String "-" rest) /\
  (forall y rest, str_mem "-" y = false -> year_of (y ++ String "-" rest) = y).
Proof.
  split; [apply split_head_clean|]. split; [apply split_head_prefix|].
  intros y rest Hy. now apply split_head_app.
Qed.

Example year_of_iso_date : year_of "2021-06-02" = "2021".
Proof. reflexivity. Qed.
